(** * dolphin-thor: hardware detection and tuning policy

    A shallow embedding of
      - Source/Android/jni/AndroidCommon/CpuAffinity.cpp
      - Source/Core/VideoBackends/Vulkan/AdrenoOptimizations.cpp
    and the properties of the CPU-affinity and Adreno-740 policy code.

    Conventions.
      - C [int] / [long] / [u32] / [size_t] values are [Z]; every conversion
        or arithmetic step that can wrap is written with [wrap_signed] /
        [wrap_unsigned].
      - A NUL-terminated C string is the [string] of the bytes before its
        terminator; a [const char*] that may be null is an [option string].
      - Globals, the log and the system calls issued are threaded through a
        state-and-fault monad [M]; [Fault] stands for undefined behaviour
        (dereferencing a null pointer). *)

From Stdlib Require Import ZArith List String Ascii Bool Lia DecimalString.
Import ListNotations.

Local Open Scope string_scope.
Local Open Scope Z_scope.

(* ================================================================== *)
(** ** Machine integers *)

Definition wrap_unsigned (bits z : Z) : Z := z mod 2 ^ bits.

Definition wrap_signed (bits z : Z) : Z :=
  (z + 2 ^ (bits - 1)) mod 2 ^ bits - 2 ^ (bits - 1).

(** [(int)x] for a [long] x. *)
Definition int_of_long (z : Z) : Z := wrap_signed 32 z.

(** [int * int], two's complement. *)
Definition int_mul (a b : Z) : Z := wrap_signed 32 (a * b).

(** Conversion of an [int] to [u32] and to a 64-bit [size_t]. *)
Definition u32_of_int (z : Z) : Z := wrap_unsigned 32 z.
Definition size_t_of_int (z : Z) : Z := wrap_unsigned 64 z.

(** [std::to_string(int)]. *)
Definition to_string (z : Z) : string := NilZero.string_of_int (Z.to_int z).

(* ================================================================== *)
(** ** C strings *)

(** [strstr(haystack, needle)]: the offset of the first occurrence of
    [needle] in [haystack]; [None] is the null result.  An empty needle is
    found at offset 0. *)
Fixpoint strstr (haystack needle : string) {struct haystack} : option nat :=
  match haystack with
  | EmptyString => if prefix needle EmptyString then Some 0%nat else None
  | String _ rest =>
      if prefix needle haystack then Some 0%nat
      else option_map S (strstr rest needle)
  end.

(** [p != nullptr]. *)
Definition not_null {A : Type} (p : option A) : bool :=
  match p with Some _ => true | None => false end.

(** The mathematical reading of "contains": [needle] occurs somewhere in
    [haystack], byte for byte. *)
Definition contains (haystack needle : string) : Prop :=
  exists pre post, haystack = pre ++ needle ++ post.

(* ================================================================== *)
(** ** Logging (Common/Logging/Log.h) *)

Inductive LogLevel := LERROR | LWARNING | LINFO.
Inductive LogType := COMMON | VIDEO.

(** An argument substituted for a [{}] of the format string. *)
Inductive FmtArg :=
| ArgInt (z : Z)
| ArgStr (s : string).

Record LogEvent := mkLog {
  log_level : LogLevel;
  log_type : LogType;
  log_format : string;
  log_args : list FmtArg
}.

(** State that carries the log. *)
Class Logger (S : Type) := { emit : LogEvent -> S -> S }.

#[global] Instance Logger_list : Logger (list LogEvent) :=
  { emit e l := (l ++ [e])%list }.

(* ================================================================== *)
(** ** The monad: state passing with a fault outcome *)

Inductive Outcome (A : Type) : Type :=
| Ok (a : A)
| Fault.
Arguments Ok {A} a.
Arguments Fault {A}.

Definition M (S A : Type) : Type := S -> Outcome (A * S).

Definition ret {S A : Type} (a : A) : M S A := fun s => Ok (a, s).

Definition bind {S A B : Type} (m : M S A) (k : A -> M S B) : M S B :=
  fun s => match m s with
           | Ok (a, s') => k a s'
           | Fault => Fault
           end.

Definition fault {S A : Type} : M S A := fun _ => Fault.

Definition gets {S A : Type} (f : S -> A) : M S A := fun s => Ok (f s, s).

Definition modify {S : Type} (f : S -> S) : M S unit := fun s => Ok (tt, f s).

Declare Scope monad_scope.
Delimit Scope monad_scope with monad.
Notation "x <- m ;; k" := (bind m (fun x => k))
  (at level 61, m at next level, right associativity) : monad_scope.
Notation "m ;; k" := (bind m (fun _ => k))
  (at level 61, right associativity) : monad_scope.
Local Open Scope monad_scope.

(** Short-circuit [a || b] and [a && b] on effectful operands. *)
Definition orM {S : Type} (a b : M S bool) : M S bool :=
  x <- a ;; if x then ret true else b.

Definition andM {S : Type} (a b : M S bool) : M S bool :=
  x <- a ;; if x then b else ret false.

Definition LOG_FMT {S : Type} `{Logger S}
    (lvl : LogLevel) (ty : LogType) (fmt : string) (args : list FmtArg)
  : M S unit :=
  modify (emit (mkLog lvl ty fmt args)).

Definition INFO_LOG_FMT {S : Type} `{Logger S} := @LOG_FMT S _ LINFO.
Definition WARN_LOG_FMT {S : Type} `{Logger S} := @LOG_FMT S _ LWARNING.
Definition ERROR_LOG_FMT {S : Type} `{Logger S} := @LOG_FMT S _ LERROR.

(** The value and the final state of a run that did not fault. *)
Definition result {S A : Type} (o : Outcome (A * S)) : option A :=
  match o with Ok (a, _) => Some a | Fault => None end.

Definition final {S A : Type} (o : Outcome (A * S)) : option S :=
  match o with Ok (_, s) => Some s | Fault => None end.

(* ================================================================== *)
(** ** Source/Android/jni/AndroidCommon/CpuAffinity.cpp *)

Module AndroidCpuAffinity.

(** *** What the program reads from, and asks of, the operating system *)

(** [cpu_set_t]: a bit mask, bit [c] standing for logical processor [c]. *)
Definition cpu_set_t : Type := Z.

(** The build target.  Under [__ANDROID__] the property store answers
    [__system_property_get(name, buf)] with the string it leaves in
    [buf] (empty for an undefined property); on any other target the
    code between [#ifdef __ANDROID__] and [#endif] does not exist. *)
Inductive Platform :=
| Android (system_property_get : string -> string)
| NotAndroid.

(** One [sched_setaffinity(pid, sizeof(cpu_set_t), &mask)] request. *)
Record AffinityRequest := mkRequest {
  req_pid : Z;
  req_mask : cpu_set_t
}.

Record OS := mkOS {
  platform : Platform;
  (** [sysconf(_SC_NPROCESSORS_CONF)], a [long]. *)
  sysconf_NPROCESSORS_CONF : Z;
  (** Number of bits of a [cpu_set_t] (sched.h). *)
  CPU_SETSIZE : Z;
  (** [pthread_self()] and [syscall(SYS_gettid)] of the calling thread. *)
  pthread_self : Z;
  gettid : Z;
  (** The kernel's answer to a request, given the requests served before:
      the return value and [strerror(errno)] after the call. *)
  sched_setaffinity_answer : list AffinityRequest -> AffinityRequest -> Z * string
}.

(** *** Data *)

Record CpuTopology := mkTopology {
  is_snapdragon_8_gen_2 : bool;
  prime_core : Z;
  gold_cores_start : Z;
  gold_cores_end : Z;
  silver_cores_start : Z;
  silver_cores_end : Z;
  total_cores : Z
}.

(** The default member initialisers of [struct CpuTopology]. *)
Definition CpuTopology_default : CpuTopology :=
  {| is_snapdragon_8_gen_2 := false;
     prime_core := -1;
     gold_cores_start := -1;
     gold_cores_end := -1;
     silver_cores_start := -1;
     silver_cores_end := -1;
     total_cores := 0 |}.

(** Process state: the global [g_topology], the log, and the affinity
    requests made to the kernel so far (oldest first). *)
Record State := mkState {
  g_topology : CpuTopology;
  log : list LogEvent;
  affinity_requests : list AffinityRequest
}.

Definition initial_state : State :=
  {| g_topology := CpuTopology_default; log := []; affinity_requests := [] |}.

#[global] Instance Logger_State : Logger State :=
  { emit e s := {| g_topology := g_topology s;
                   log := (log s ++ [e])%list;
                   affinity_requests := affinity_requests s |} }.

Definition update_topology (f : CpuTopology -> CpuTopology) : M State unit :=
  modify (fun s => {| g_topology := f (g_topology s);
                      log := log s;
                      affinity_requests := affinity_requests s |}).

Definition set_total_cores (n : Z) (g : CpuTopology) : CpuTopology :=
  {| is_snapdragon_8_gen_2 := is_snapdragon_8_gen_2 g;
     prime_core := prime_core g;
     gold_cores_start := gold_cores_start g;
     gold_cores_end := gold_cores_end g;
     silver_cores_start := silver_cores_start g;
     silver_cores_end := silver_cores_end g;
     total_cores := n |}.

Definition set_is_snapdragon_8_gen_2 (b : bool) (g : CpuTopology) : CpuTopology :=
  {| is_snapdragon_8_gen_2 := b;
     prime_core := prime_core g;
     gold_cores_start := gold_cores_start g;
     gold_cores_end := gold_cores_end g;
     silver_cores_start := silver_cores_start g;
     silver_cores_end := silver_cores_end g;
     total_cores := total_cores g |}.

Definition set_prime_core (n : Z) (g : CpuTopology) : CpuTopology :=
  {| is_snapdragon_8_gen_2 := is_snapdragon_8_gen_2 g;
     prime_core := n;
     gold_cores_start := gold_cores_start g;
     gold_cores_end := gold_cores_end g;
     silver_cores_start := silver_cores_start g;
     silver_cores_end := silver_cores_end g;
     total_cores := total_cores g |}.

Definition set_gold_cores (s e : Z) (g : CpuTopology) : CpuTopology :=
  {| is_snapdragon_8_gen_2 := is_snapdragon_8_gen_2 g;
     prime_core := prime_core g;
     gold_cores_start := s;
     gold_cores_end := e;
     silver_cores_start := silver_cores_start g;
     silver_cores_end := silver_cores_end g;
     total_cores := total_cores g |}.

Definition set_silver_cores (s e : Z) (g : CpuTopology) : CpuTopology :=
  {| is_snapdragon_8_gen_2 := is_snapdragon_8_gen_2 g;
     prime_core := prime_core g;
     gold_cores_start := gold_cores_start g;
     gold_cores_end := gold_cores_end g;
     silver_cores_start := s;
     silver_cores_end := e;
     total_cores := total_cores g |}.

(** *** sched.h *)

Definition CPU_ZERO : cpu_set_t := 0.

(** [CPU_SET(cpu, &set)]: sets bit [cpu] when it fits the set, and does
    nothing otherwise. *)
Definition CPU_SET (os : OS) (cpu : Z) (set : cpu_set_t) : cpu_set_t :=
  if (0 <=? cpu) && (cpu <? CPU_SETSIZE os)
  then Z.lor set (Z.shiftl 1 cpu)
  else set.

Definition CPU_ISSET (cpu : Z) (set : cpu_set_t) : bool := Z.testbit set cpu.

(** A [pthread_t] handed to a [pid_t] parameter: the handle is converted
    to [int], keeping its low 32 bits. *)
Definition pid_t_of_pthread_t (thread : Z) : Z := wrap_signed 32 thread.

(** The system call: recorded, and answered by the kernel. *)
Definition sched_setaffinity (os : OS) (pid : Z) (mask : cpu_set_t)
  : M State (Z * string) :=
  fun s =>
    let r := mkRequest pid mask in
    Ok (sched_setaffinity_answer os (affinity_requests s) r,
        {| g_topology := g_topology s;
           log := log s;
           affinity_requests := (affinity_requests s ++ [r])%list |}).

(** *** The anonymous namespace *)

Definition DetectSnapdragon8Gen2 (os : OS) : M State bool :=
  match platform os with
  | Android system_property_get =>
      let soc_model := system_property_get "ro.soc.model" in
      let soc_manufacturer := system_property_get "ro.soc.manufacturer" in
      let is_sm8550 :=
        not_null (strstr soc_model "SM8550") ||
        not_null (strstr soc_model "kalama") in
      let is_qualcomm :=
        not_null (strstr soc_manufacturer "Qualcomm") ||
        not_null (strstr soc_manufacturer "QTI") in
      if is_sm8550 && is_qualcomm then
        INFO_LOG_FMT COMMON "Detected Snapdragon 8 Gen 2 (SM8550)" [] ;;
        ret true
      else ret false
  | NotAndroid => ret false
  end.

Definition InitializeCpuTopology (os : OS) : M State unit :=
  update_topology (set_total_cores (int_of_long (sysconf_NPROCESSORS_CONF os))) ;;
  detected <- DetectSnapdragon8Gen2 os ;;
  if detected then
    update_topology (set_is_snapdragon_8_gen_2 true) ;;
    update_topology (set_prime_core 0) ;;
    update_topology (set_gold_cores 1 4) ;;
    update_topology (set_silver_cores 5 7) ;;
    g <- gets g_topology ;;
    INFO_LOG_FMT COMMON
      "CPU Topology: Prime={}, Gold={}-{}, Silver={}-{}, Total={}"
      [ArgInt (prime_core g);
       ArgInt (gold_cores_start g); ArgInt (gold_cores_end g);
       ArgInt (silver_cores_start g); ArgInt (silver_cores_end g);
       ArgInt (total_cores g)]
  else
    WARN_LOG_FMT COMMON
      "Not a Snapdragon 8 Gen 2 device, CPU affinity disabled" [].

(** The loop [for (int core : cores) if (core >= 0 && core < total_cores)
    CPU_SET(core, &cpuset);]. *)
Definition build_cpuset (os : OS) (g : CpuTopology) (cores : list Z)
  : cpu_set_t :=
  fold_left
    (fun cpuset core =>
       if (core >=? 0) && (core <? total_cores g)
       then CPU_SET os core cpuset
       else cpuset)
    cores CPU_ZERO.

(** The loop building the logged [core_list]: the entries joined by
    commas. *)
Fixpoint core_list (cores : list Z) : string :=
  match cores with
  | [] => ""
  | c :: rest =>
      to_string c ++ (match rest with [] => "" | _ => "," end) ++ core_list rest
  end.

(** The same loop, index by index as it is written:
    [for (size_t i = 0; i < cores.size(); i++)
       { core_list += std::to_string(cores[i]);
         if (i < cores.size() - 1) core_list += ","; }]
    with [cores.size() - 1] computed in [size_t].  [fuel] bounds the number
    of iterations. *)
Fixpoint core_list_loop (fuel : nat) (cores : list Z) (i : Z) (acc : string)
  : string :=
  match fuel with
  | O => acc
  | S fuel' =>
      if i <? Z.of_nat (List.length cores) then
        let acc := acc ++ to_string (List.nth (Z.to_nat i) cores 0) in
        let acc :=
          if i <? wrap_unsigned 64 (Z.of_nat (List.length cores) - 1)
          then acc ++ "," else acc in
        core_list_loop fuel' cores (i + 1) acc
      else acc
  end.

Definition core_list_by_index (cores : list Z) : string :=
  core_list_loop (List.length cores) cores 0 "".

Definition SetThreadAffinityToCores (os : OS) (cores : list Z) : M State bool :=
  match cores with
  | [] => ret false
  | _ =>
      g <- gets g_topology ;;
      let cpuset := build_cpuset os g cores in
      let current_thread := pthread_self os in
      answer <- sched_setaffinity os (pid_t_of_pthread_t current_thread) cpuset ;;
      if negb (fst answer =? 0) then
        ERROR_LOG_FMT COMMON "Failed to set CPU affinity: {}"
          [ArgStr (snd answer)] ;;
        ret false
      else
        INFO_LOG_FMT COMMON "Thread {} affinity set to cores: {}"
          [ArgInt (gettid os); ArgStr (core_list cores)] ;;
        ret true
  end.

(** *** The public interface *)

Definition Initialize (os : OS) : M State unit := InitializeCpuTopology os.

Definition IsSnapdragon8Gen2 : M State bool :=
  gets (fun s => is_snapdragon_8_gen_2 (g_topology s)).

(** [for (int i = first; i <= last; i++) v.push_back(i);] *)
Fixpoint push_back_loop (n : nat) (i : Z) (v : list Z) : list Z :=
  match n with
  | O => v
  | S n' => push_back_loop n' (i + 1) (v ++ [i])%list
  end.

Definition push_back_range (first last : Z) (v : list Z) : list Z :=
  push_back_loop (Z.to_nat (last + 1 - first)) first v.

(** The vectors the three pinning functions build. *)
Definition gold_cores (g : CpuTopology) : list Z :=
  push_back_range (gold_cores_start g) (gold_cores_end g) [].

Definition perf_cores (g : CpuTopology) : list Z :=
  push_back_range (gold_cores_start g) (gold_cores_end g) [prime_core g].

Definition silver_cores (g : CpuTopology) : list Z :=
  push_back_range (silver_cores_start g) (silver_cores_end g) [].

Definition SetPowerPCThreadAffinity (os : OS) : M State unit :=
  g <- gets g_topology ;;
  if negb (is_snapdragon_8_gen_2 g) then ret tt
  else
    pinned <- SetThreadAffinityToCores os (gold_cores g) ;;
    if pinned then INFO_LOG_FMT COMMON "PowerPC thread pinned to Gold cores" []
    else ret tt.

Definition SetGPUThreadAffinity (os : OS) : M State unit :=
  g <- gets g_topology ;;
  if negb (is_snapdragon_8_gen_2 g) then ret tt
  else
    pinned <- SetThreadAffinityToCores os (perf_cores g) ;;
    if pinned then INFO_LOG_FMT COMMON "GPU thread pinned to Prime+Gold cores" []
    else ret tt.

Definition SetAudioThreadAffinity (os : OS) : M State unit :=
  g <- gets g_topology ;;
  if negb (is_snapdragon_8_gen_2 g) then ret tt
  else
    pinned <- SetThreadAffinityToCores os (silver_cores g) ;;
    if pinned then INFO_LOG_FMT COMMON "Audio thread pinned to Silver cores" []
    else ret tt.

Definition SetGenericThreadAffinity : M State unit := ret tt.

Definition SetCpuGovernorPerformance (os : OS) : M State unit :=
  match platform os with
  | Android _ =>
      g <- gets g_topology ;;
      if negb (is_snapdragon_8_gen_2 g) then ret tt
      else INFO_LOG_FMT COMMON
             "CPU Governor optimization requested (requires root)" []
  | NotAndroid => ret tt
  end.

Definition GetRecommendedThreadCount : M State Z :=
  g <- gets g_topology ;;
  if is_snapdragon_8_gen_2 g then ret 4
  else ret (total_cores g).

End AndroidCpuAffinity.

(* ================================================================== *)
(** ** The CPU-side components, as views of the code above *)

(** [TopologyDetector.detect]: the topology a process holds once
    [Initialize] has run at start-up. *)
Module TopologyDetector.
Import AndroidCpuAffinity.

Definition detect (os : OS) : option CpuTopology :=
  option_map g_topology (final (Initialize os initial_state)).

Inductive ClusterRole := Prime | Gold | Silver.

Record ClusterSpec := mkCluster {
  role : ClusterRole;
  range_start : Z;
  range_end : Z
}.

(** The cluster list a [CpuTopology] stands for: a cluster whose fields
    still hold the initialiser [-1] is absent. *)
Definition clusters (g : CpuTopology) : list ClusterSpec :=
  ((if prime_core g =? -1 then []
    else [mkCluster Prime (prime_core g) (prime_core g)]) ++
   (if (gold_cores_start g =? -1) && (gold_cores_end g =? -1) then []
    else [mkCluster Gold (gold_cores_start g) (gold_cores_end g)]) ++
   (if (silver_cores_start g =? -1) && (silver_cores_end g =? -1) then []
    else [mkCluster Silver (silver_cores_start g) (silver_cores_end g)]))%list.

(** The signature of the reference device: read on an Android build,
    the model property contains one of the two platform names and the
    manufacturer property one of the two vendor names. *)
Definition reference_signature (os : OS) : Prop :=
  exists system_property_get,
    platform os = Android system_property_get /\
    (contains (system_property_get "ro.soc.model") "SM8550" \/
     contains (system_property_get "ro.soc.model") "kalama") /\
    (contains (system_property_get "ro.soc.manufacturer") "Qualcomm" \/
     contains (system_property_get "ro.soc.manufacturer") "QTI").

(** The reference layout: Prime = core 0, Gold = cores 1-4,
    Silver = cores 5-7. *)
Definition reference_clusters : list ClusterSpec :=
  [mkCluster Prime 0 0; mkCluster Gold 1 4; mkCluster Silver 5 7].

(** The topology [InitializeCpuTopology] writes on a match, for a given
    recorded core count. *)
Definition reference_topology (total : Z) : CpuTopology :=
  mkTopology true 0 1 4 5 7 total.

(** The core indices of a cluster. *)
Definition covers (c : ClusterSpec) (i : Z) : Prop :=
  range_start c <= i <= range_end c.

(** The four parts of the [CpuTopology] invariant. *)
Definition ranges_disjoint (g : CpuTopology) : Prop :=
  ForallOrdPairs (fun c1 c2 => forall i, ~ (covers c1 i /\ covers c2 i))
                 (clusters g).

Definition ranges_nonnegative (g : CpuTopology) : Prop :=
  Forall (fun c => 0 <= range_start c /\ 0 <= range_end c) (clusters g).

Definition ranges_within_total (g : CpuTopology) : Prop :=
  Forall (fun c => forall i, covers c i -> 0 <= i < total_cores g)
         (clusters g).

Definition unmatched_is_empty (g : CpuTopology) : Prop :=
  is_snapdragon_8_gen_2 g = false -> clusters g = [].

Definition invariant (g : CpuTopology) : Prop :=
  ranges_disjoint g /\ ranges_nonnegative g /\
  ranges_within_total g /\ unmatched_is_empty g.

End TopologyDetector.

(** [AffinityPlanner.plan]: the core list a role's pinning function hands
    to [SetThreadAffinityToCores]; empty when it hands over nothing. *)
Module AffinityPlanner.
Import AndroidCpuAffinity.

Inductive ThreadRole := PowerPC | GPU | Audio | Generic.

(** The pinning function of each role, from the source. *)
Definition SetThreadAffinity (os : OS) (r : ThreadRole) : M State unit :=
  match r with
  | PowerPC => SetPowerPCThreadAffinity os
  | GPU => SetGPUThreadAffinity os
  | Audio => SetAudioThreadAffinity os
  | Generic => SetGenericThreadAffinity
  end.

(** The message logged by a role's function after a successful pin. *)
Definition pinned_message (r : ThreadRole) : list LogEvent :=
  match r with
  | PowerPC => [mkLog LINFO COMMON "PowerPC thread pinned to Gold cores" []]
  | GPU => [mkLog LINFO COMMON "GPU thread pinned to Prime+Gold cores" []]
  | Audio => [mkLog LINFO COMMON "Audio thread pinned to Silver cores" []]
  | Generic => []
  end.

Definition plan (g : CpuTopology) (r : ThreadRole) : list Z :=
  match r with
  | PowerPC => if is_snapdragon_8_gen_2 g then gold_cores g else []
  | GPU => if is_snapdragon_8_gen_2 g then perf_cores g else []
  | Audio => if is_snapdragon_8_gen_2 g then silver_cores g else []
  | Generic => []
  end.

End AffinityPlanner.

(** [AffinityApplicator.apply] is [SetThreadAffinityToCores]. *)
Module AffinityApplicator.
Import AndroidCpuAffinity.

Definition apply (os : OS) (plan : list Z) : M State bool :=
  SetThreadAffinityToCores os plan.

(** The plan's indices that lie inside [[0, total_cores)]. *)
Definition in_range (g : CpuTopology) (core : Z) : bool :=
  (0 <=? core) && (core <? total_cores g).

(** The mask with exactly the bits of [cores] set, as [CPU_SET] sets
    them. *)
Definition mask_of (os : OS) (cores : list Z) : cpu_set_t :=
  fold_left (fun set core => CPU_SET os core set) cores CPU_ZERO.

End AffinityApplicator.

(** Calls of the public interface, and runs of a process that makes them
    in any order. *)
Module Process.
Import AndroidCpuAffinity.

Inductive ApiCall :=
| CallInitialize
| CallIsSnapdragon8Gen2
| CallSetPowerPCThreadAffinity
| CallSetGPUThreadAffinity
| CallSetAudioThreadAffinity
| CallSetGenericThreadAffinity
| CallSetCpuGovernorPerformance
| CallGetRecommendedThreadCount.

Definition call (os : OS) (c : ApiCall) : M State unit :=
  match c with
  | CallInitialize => Initialize os
  | CallIsSnapdragon8Gen2 => (_ <- IsSnapdragon8Gen2 ;; ret tt)%monad
  | CallSetPowerPCThreadAffinity => SetPowerPCThreadAffinity os
  | CallSetGPUThreadAffinity => SetGPUThreadAffinity os
  | CallSetAudioThreadAffinity => SetAudioThreadAffinity os
  | CallSetGenericThreadAffinity => SetGenericThreadAffinity
  | CallSetCpuGovernorPerformance => SetCpuGovernorPerformance os
  | CallGetRecommendedThreadCount =>
      (_ <- GetRecommendedThreadCount ;; ret tt)%monad
  end.

(** The calls that can ask the kernel for an affinity mask. *)
Definition is_pinning_call (c : ApiCall) : bool :=
  match c with
  | CallSetPowerPCThreadAffinity
  | CallSetGPUThreadAffinity
  | CallSetAudioThreadAffinity => true
  | _ => false
  end.

(** A device to run examples on: an Android build whose model and
    manufacturer properties are as given, [cores] configured processors,
    1024-bit CPU sets, and a kernel that grants every affinity request. *)
Definition android_device (model manufacturer : string) (cores : Z) : OS :=
  {| platform :=
       Android (fun name =>
                  if String.eqb name "ro.soc.model" then model
                  else if String.eqb name "ro.soc.manufacturer" then manufacturer
                  else "");
     sysconf_NPROCESSORS_CONF := cores;
     CPU_SETSIZE := 1024;
     pthread_self := 1;
     gettid := 1;
     sched_setaffinity_answer := fun _ _ => (0, "") |}.

(** The topologies a process can hold: the initial one, or the one
    [detect] computes. *)
Definition held_topology (os : OS) (g : CpuTopology) : Prop :=
  g = CpuTopology_default \/ TopologyDetector.detect os = Some g.

Fixpoint run (os : OS) (cs : list ApiCall) : M State unit :=
  match cs with
  | [] => ret tt
  | c :: rest => (call os c ;; run os rest)%monad
  end.

End Process.

(* ================================================================== *)
(** ** Source/Core/VideoBackends/Vulkan/AdrenoOptimizations.cpp *)

Module AdrenoOptimizations.

(** These functions touch no state but the log. *)
Definition Log : Type := list LogEvent.

(** Reading through a [const char*]: a fault when it is null. *)
Definition deref (p : option string) : M Log string :=
  match p with
  | Some s => ret s
  | None => fault
  end.

(** [strstr(p, needle) != nullptr]. *)
Definition strstr_found (p : option string) (needle : string) : M Log bool :=
  s <- deref p ;; ret (not_null (strstr s needle)).

Definition QUALCOMM_VENDOR_ID : Z := 0x5143.
Definition ADRENO_740_ID_1 : Z := 0x43050A01.
Definition ADRENO_740_ID_2 : Z := 0x43051401.

Definition IsAdreno740 (device_name : option string) (vendor_id device_id : Z)
  : M Log bool :=
  if negb (vendor_id =? QUALCOMM_VENDOR_ID) then ret false
  else if (device_id =? ADRENO_740_ID_1) || (device_id =? ADRENO_740_ID_2) then
    INFO_LOG_FMT VIDEO "Adreno 740 detected via device ID: 0x{:08X}"
      [ArgInt device_id] ;;
    ret true
  else
    by_name <- andM (ret (not_null device_name))
                    (orM (strstr_found device_name "Adreno (TM) 740")
                         (strstr_found device_name "Adreno 740")) ;;
    if by_name then
      name <- deref device_name ;;
      INFO_LOG_FMT VIDEO "Adreno 740 detected via device name: {}"
        [ArgStr name] ;;
      ret true
    else ret false.

Definition IsTurnipDriver (device_name : option string) : M Log bool :=
  if negb (not_null device_name) then ret false
  else
    is_turnip <- orM (orM (strstr_found device_name "turnip")
                          (strstr_found device_name "Turnip"))
                     (strstr_found device_name "Mesa") ;;
    (if is_turnip then INFO_LOG_FMT VIDEO "Turnip Mesa drivers detected" []
     else ret tt) ;;
    ret is_turnip.

Definition push_back {A : Type} (v : list A) (x : A) : list A := (v ++ [x])%list.

Definition GetOptimalExtensions (has_turnip : bool) : M Log (list string) :=
  let extensions := [] in
  let extensions := push_back extensions "VK_KHR_shader_non_semantic_info" in
  let extensions := push_back extensions "VK_EXT_scalar_block_layout" in
  let extensions := push_back extensions "VK_KHR_spirv_1_4" in
  let extensions := push_back extensions "VK_KHR_synchronization_2" in
  let extensions := push_back extensions "VK_EXT_memory_budget" in
  let extensions := push_back extensions "VK_EXT_memory_priority" in
  (if has_turnip then
     INFO_LOG_FMT VIDEO "Adding Turnip-specific extensions" []
   else ret tt) ;;
  ret extensions.

Definition GetOptimalPipelineCacheSize : Z :=
  size_t_of_int (int_mul (int_mul 512 1024) 1024).

Record DescriptorPoolSizes := mkDescriptorPoolSizes {
  uniform_buffers : Z;
  combined_image_samplers : Z;
  storage_buffers : Z;
  uniform_texel_buffers : Z;
  max_sets : Z
}.

Definition GetOptimalDescriptorPoolSizes : M Log DescriptorPoolSizes :=
  let sizes :=
    {| uniform_buffers := u32_of_int 2048;
       combined_image_samplers := u32_of_int 8192;
       storage_buffers := u32_of_int 1024;
       uniform_texel_buffers := u32_of_int 256;
       max_sets := u32_of_int 16384 |} in
  INFO_LOG_FMT VIDEO
    "Adreno 740: Using large descriptor pools for better cache hit rate" [] ;;
  ret sizes.

Record TextureCompressionParams := mkTextureCompressionParams {
  enable_ubwc : bool;
  prefer_linear_tiling : bool;
  staging_buffer_size : Z
}.

Definition GetTextureCompressionParams : TextureCompressionParams :=
  {| enable_ubwc := true;
     prefer_linear_tiling := false;
     staging_buffer_size := u32_of_int (int_mul (int_mul 128 1024) 1024) |}.

Record MemoryParams := mkMemoryParams {
  prefer_device_local_host_visible : bool;
  staging_buffer_count : Z;
  upload_buffer_size : Z
}.

Definition GetOptimalMemoryParams : MemoryParams :=
  {| prefer_device_local_host_visible := true;
     staging_buffer_count := u32_of_int 4;
     upload_buffer_size := u32_of_int (int_mul (int_mul 64 1024) 1024) |}.

Record AsyncComputeConfig := mkAsyncComputeConfig {
  enable : bool;
  num_compute_queues : Z;
  separate_transfer_queue : bool
}.

Definition GetAsyncComputeConfig : AsyncComputeConfig :=
  {| enable := true;
     num_compute_queues := u32_of_int 1;
     separate_transfer_queue := true |}.

End AdrenoOptimizations.

(* ================================================================== *)
(** ** The GPU-side components, as views of the code above *)

Module GpuDetector.
Import AdrenoOptimizations.

Inductive GpuFamily := Adreno740 | UnknownFamily.

(** Any driver that is not Turnip is the vendor's or an unknown one. *)
Inductive GpuDriver := Turnip | ProprietaryOrUnknown.

Record GpuProfile := mkProfile {
  family : GpuFamily;
  driver : GpuDriver
}.

(** The device name is there and carries one of the two Adreno 740 name
    fragments. *)
Definition name_matches (device_name : option string) : Prop :=
  exists s, device_name = Some s /\
            (contains s "Adreno (TM) 740" \/ contains s "Adreno 740").

Definition detect (device_name : option string) (vendor_id device_id : Z)
  : M Log GpuProfile :=
  is_adreno <- IsAdreno740 device_name vendor_id device_id ;;
  is_turnip <- IsTurnipDriver device_name ;;
  ret {| family := if is_adreno then Adreno740 else UnknownFamily;
         driver := if is_turnip then Turnip else ProprietaryOrUnknown |}.

End GpuDetector.

Module OptimizationPolicyBuilder.
Import AdrenoOptimizations GpuDetector.

Record OptimizationPolicy := mkPolicy {
  extensions : list string;
  pipeline_cache_size : Z;
  descriptor_pool : DescriptorPoolSizes;
  texture_compression : TextureCompressionParams;
  memory : MemoryParams;
  async_compute : AsyncComputeConfig
}.

(** The policy of the recognised family: what the six getters return.
    The code defines no policy for an unrecognised family. *)
Definition build (profile : GpuProfile) : M Log OptimizationPolicy :=
  exts <- GetOptimalExtensions
            (match driver profile with Turnip => true | _ => false end) ;;
  pool <- GetOptimalDescriptorPoolSizes ;;
  ret {| extensions := exts;
         pipeline_cache_size := GetOptimalPipelineCacheSize;
         descriptor_pool := pool;
         texture_compression := GetTextureCompressionParams;
         memory := GetOptimalMemoryParams;
         async_compute := GetAsyncComputeConfig |}.

End OptimizationPolicyBuilder.

(* ================================================================== *)
(** * Properties *)

(** ** Machine integers *)

Lemma int_of_long_small (z : Z) :
  - 2 ^ 31 <= z < 2 ^ 31 -> int_of_long z = z.
Proof.
  intros Hz. unfold int_of_long, wrap_signed.
  change (2 ^ (32 - 1)) with 2147483648 in *.
  change (2 ^ 32) with 4294967296.
  change (2 ^ 31) with 2147483648 in Hz.
  rewrite Z.mod_small by lia. lia.
Qed.

Lemma int_of_long_range (z : Z) : - 2 ^ 31 <= int_of_long z < 2 ^ 31.
Proof.
  unfold int_of_long, wrap_signed.
  change (2 ^ (32 - 1)) with 2147483648.
  change (2 ^ 32) with 4294967296.
  change (2 ^ 31) with 2147483648.
  pose proof (Z.mod_pos_bound (z + 2147483648) 4294967296 ltac:(lia)). lia.
Qed.

(** ** [strstr] finds exactly the substrings *)

Lemma prefix_append (p s : string) :
  prefix p s = true <-> exists t, s = p ++ t.
Proof.
  revert s. induction p as [|a p IH]; intros s.
  - split; [intros _; now exists s | destruct s; reflexivity].
  - destruct s as [|b s]; simpl.
    + split; [discriminate | intros [t Ht]; discriminate].
    + destruct (ascii_dec a b) as [->|Hab].
      * rewrite IH. split; intros [t Ht]; exists t.
        -- now rewrite Ht.
        -- now inversion Ht.
      * split; [discriminate | intros [t Ht]; simpl in Ht; congruence].
Qed.

Lemma contains_nil (needle : string) :
  contains "" needle <-> needle = "".
Proof.
  split.
  - intros (pre & post & H).
    destruct pre; [|discriminate]. destruct needle; [reflexivity | discriminate].
  - intros ->. now exists "", "".
Qed.

Lemma contains_cons (c : ascii) (rest needle : string) :
  contains (String c rest) needle <->
  (exists t, String c rest = needle ++ t) \/ contains rest needle.
Proof.
  split.
  - intros (pre & post & H). destruct pre as [|a pre]; simpl in H.
    + left. now exists post.
    + right. inversion H; subst. now exists pre, post.
  - intros [[t Ht] | (pre & post & H)].
    + now exists "", t.
    + exists (String c pre), post. simpl. now rewrite H.
Qed.

Lemma strstr_contains (haystack needle : string) :
  not_null (strstr haystack needle) = true <-> contains haystack needle.
Proof.
  induction haystack as [|c rest IH].
  - rewrite contains_nil. simpl. destruct needle; simpl; split; congruence.
  - rewrite contains_cons, <- IH, <- prefix_append. cbn [strstr].
    destruct (prefix needle (String c rest)); simpl.
    + tauto.
    + destruct (strstr rest needle); simpl; split; intuition congruence.
Qed.

Lemma strstr_none (haystack needle : string) :
  strstr haystack needle = None <-> ~ contains haystack needle.
Proof.
  rewrite <- strstr_contains.
  destruct (strstr haystack needle); simpl; split; congruence.
Qed.

(** The match is byte for byte: no case folding. *)
Example strstr_case_sensitive :
  strstr "sm8550" "SM8550" = None /\ strstr "qti" "QTI" = None /\
  strstr "Qualcomm SM8550-AB" "SM8550" = Some 9%nat.
Proof. repeat split. Qed.

(* ================================================================== *)
(** ** CPU topology detection *)

Section Topology.
Import AndroidCpuAffinity TopologyDetector.

Variable os : OS.

Lemma DetectSnapdragon8Gen2_run (s : State) :
  exists b s',
    DetectSnapdragon8Gen2 os s = Ok (b, s') /\
    (b = true <-> reference_signature os) /\
    g_topology s' = g_topology s /\
    affinity_requests s' = affinity_requests s.
Proof.
  unfold DetectSnapdragon8Gen2, reference_signature.
  destruct (platform os) as [getprop|] eqn:Hp.
  - match goal with |- context [if ?c then _ else _] => destruct c eqn:Hc end.
    + eexists true, _. split; [reflexivity|]. repeat split.
      apply andb_true_iff in Hc as [Hm Hv].
      apply orb_true_iff in Hm, Hv.
      rewrite !strstr_contains in Hm, Hv.
      exists getprop. auto.
    + eexists false, _. split; [reflexivity|]. repeat split; try discriminate.
      intros (gp & Heq & Hm & Hv). injection Heq as <-.
      rewrite <- !strstr_contains, <- orb_true_iff in Hm, Hv.
      rewrite Hm, Hv in Hc. discriminate.
  - exists false, s. repeat split; try discriminate.
    intros (gp & Heq & _). discriminate.
Qed.

Lemma Initialize_run (s : State) :
  exists s',
    Initialize os s = Ok (tt, s') /\
    affinity_requests s' = affinity_requests s /\
    ((reference_signature os /\ g_topology s' =
     reference_topology (int_of_long (sysconf_NPROCESSORS_CONF os))) \/
     (~ reference_signature os /\
      g_topology s' =
        set_total_cores (int_of_long (sysconf_NPROCESSORS_CONF os))
                        (g_topology s))).
Proof.
  unfold Initialize, InitializeCpuTopology.
  unfold bind at 1. cbn [update_topology modify]. unfold bind at 1.
  match goal with |- context [DetectSnapdragon8Gen2 os ?s0] =>
    destruct (DetectSnapdragon8Gen2_run s0) as (b & s1 & Hrun & Hb & Hg & Ha)
  end.
  rewrite Hrun.
  destruct b.
  - eexists. split; [reflexivity|]. cbn. split; [exact Ha|].
    left. split; [now apply Hb|]. rewrite Hg. reflexivity.
  - eexists. split; [reflexivity|]. cbn. split; [exact Ha|].
    right. split; [intros H; apply Hb in H; discriminate|]. exact Hg.
Qed.

Lemma detect_run :
  (reference_signature os /\ detect os =
     Some (reference_topology (int_of_long (sysconf_NPROCESSORS_CONF os)))) \/
  (~ reference_signature os /\
   detect os =
     Some (set_total_cores (int_of_long (sysconf_NPROCESSORS_CONF os))
                           CpuTopology_default)).
Proof.
  unfold detect.
  destruct (Initialize_run initial_state) as (s' & -> & _ & [[H Hg] | [H Hg]]);
    cbn [final option_map]; rewrite Hg; [left | right]; split; auto.
Qed.

(** C1.  [TopologyDetector.detect] always yields a topology, and it
    classifies the device as the reference one if and only if the model
    property contains "SM8550" or "kalama" and the manufacturer property
    contains "Qualcomm" or "QTI" (byte-for-byte substrings).  On a match
    the layout is Prime = core 0, Gold = cores 1-4, Silver = cores 5-7
    whatever core count the OS reports; on a non-match every cluster
    field keeps its absent value and the cluster list is empty.  Either
    way [total_cores] is the count read from the OS. *)
Theorem detect_classifies_reference_topology :
  exists g,
    detect os = Some g /\
    (is_snapdragon_8_gen_2 g = true <-> reference_signature os) /\
    total_cores g = int_of_long (sysconf_NPROCESSORS_CONF os) /\
    (if is_snapdragon_8_gen_2 g
     then prime_core g = 0 /\
          gold_cores_start g = 1 /\ gold_cores_end g = 4 /\
          silver_cores_start g = 5 /\ silver_cores_end g = 7 /\
          clusters g = reference_clusters
     else prime_core g = -1 /\
          gold_cores_start g = -1 /\ gold_cores_end g = -1 /\
          silver_cores_start g = -1 /\ silver_cores_end g = -1 /\
          clusters g = []).
Proof.
  destruct detect_run as [[Hsig ->] | [Hsig ->]]; eexists; (split; [reflexivity|]).
  - cbn. repeat split; auto.
  - cbn. repeat split; auto; discriminate.
Qed.

(** For a processor count that fits an [int], the recorded count is the
    reported one. *)
Corollary detect_total_cores_exact :
  - 2 ^ 31 <= sysconf_NPROCESSORS_CONF os < 2 ^ 31 ->
  exists g, detect os = Some g /\ total_cores g = sysconf_NPROCESSORS_CONF os.
Proof.
  intros Hfit.
  destruct detect_run as [[_ ->] | [_ ->]]; eexists; (split; [reflexivity|]);
    cbn; now apply int_of_long_small.
Qed.

End Topology.

(** Lower-case property values do not match, and neither does any device
    on a build that is not Android. *)
Example detect_unmatched_devices :
  TopologyDetector.detect (Process.android_device "sm8550" "qualcomm" 8) =
    Some (AndroidCpuAffinity.mkTopology false (-1) (-1) (-1) (-1) (-1) 8) /\
  TopologyDetector.detect
    (AndroidCpuAffinity.mkOS AndroidCpuAffinity.NotAndroid 8 1024 1 1
                             (fun _ _ => (0, ""))) =
    Some (AndroidCpuAffinity.mkTopology false (-1) (-1) (-1) (-1) (-1) 8).
Proof. split; reflexivity. Qed.

(* ================================================================== *)
(** ** Applying an affinity plan *)

Section Applicator.
Import AndroidCpuAffinity AffinityApplicator.

Variable os : OS.

Lemma CPU_SET_bits (cpu : Z) (set : cpu_set_t) (i : Z) :
  CPU_ISSET i (CPU_SET os cpu set) = true <->
  CPU_ISSET i set = true \/ (i = cpu /\ 0 <= i < CPU_SETSIZE os).
Proof.
  unfold CPU_ISSET, CPU_SET.
  destruct (0 <=? cpu) eqn:H0; destruct (cpu <? CPU_SETSIZE os) eqn:H1; cbn [andb];
    try (split; [auto | intros [H | [-> H]]; [exact H | lia]]).
  apply Z.leb_le in H0. apply Z.ltb_lt in H1.
  rewrite Z.lor_spec, Z.shiftl_1_l, Z.pow2_bits_eqb, orb_true_iff, Z.eqb_eq by exact H0.
  split; (intros [H | H]; [now left | right]); [subst; lia | symmetry; apply H].
Qed.

Lemma mask_bits (cores : list Z) (acc : cpu_set_t) (i : Z) :
  CPU_ISSET i (fold_left (fun set core => CPU_SET os core set) cores acc) = true <->
  CPU_ISSET i acc = true \/ (In i cores /\ 0 <= i < CPU_SETSIZE os).
Proof.
  revert acc. induction cores as [|c cores IH]; intros acc; cbn [fold_left In].
  - tauto.
  - rewrite IH, CPU_SET_bits. intuition (subst; auto).
Qed.

Lemma build_cpuset_filter (g : CpuTopology) (cores : list Z) :
  build_cpuset os g cores = mask_of os (filter (in_range g) cores).
Proof.
  unfold build_cpuset, mask_of. generalize CPU_ZERO as acc.
  induction cores as [|c cores IH]; intros acc; cbn [fold_left filter].
  - reflexivity.
  - unfold in_range at 1. rewrite Z.geb_leb.
    destruct ((0 <=? c) && (c <? total_cores g)); cbn [fold_left]; apply IH.
Qed.

(** The bits of the mask: the plan's indices inside [[0, total_cores)]
    that a [cpu_set_t] has room for. *)
Lemma build_cpuset_bits (g : CpuTopology) (cores : list Z) (i : Z) :
  CPU_ISSET i (build_cpuset os g cores) = true <->
  In i cores /\ 0 <= i < total_cores g /\ i < CPU_SETSIZE os.
Proof.
  rewrite build_cpuset_filter. unfold mask_of. rewrite mask_bits.
  unfold CPU_ISSET at 1, CPU_ZERO. rewrite Z.testbit_0_l, filter_In.
  unfold in_range. rewrite andb_true_iff, Z.leb_le, Z.ltb_lt.
  intuition (try discriminate; lia).
Qed.

(** What [SetThreadAffinityToCores] does on a plan that is not empty: one
    request carrying the converted thread handle, then a log line that depends on the
    kernel's answer. *)
Lemma SetThreadAffinityToCores_run (c : Z) (cores : list Z) (s : State) :
  let request :=
    mkRequest (pid_t_of_pthread_t (pthread_self os)) (build_cpuset os (g_topology s) (c :: cores)) in
  let answer := sched_setaffinity_answer os (affinity_requests s) request in
  let event :=
    if fst answer =? 0
    then mkLog LINFO COMMON "Thread {} affinity set to cores: {}"
           [ArgInt (gettid os); ArgStr (core_list (c :: cores))]
    else mkLog LERROR COMMON "Failed to set CPU affinity: {}"
           [ArgStr (snd answer)] in
  SetThreadAffinityToCores os (c :: cores) s =
    Ok (fst answer =? 0,
        {| g_topology := g_topology s;
           log := (log s ++ [event])%list;
           affinity_requests := (affinity_requests s ++ [request])%list |}).
Proof.
  intros request answer event. subst event.
  unfold SetThreadAffinityToCores, bind, gets, sched_setaffinity.
  fold request. fold answer.
  destruct (fst answer =? 0); reflexivity.
Qed.

Lemma SetThreadAffinityToCores_frame (cores : list Z) (s : State) :
  exists b s',
    SetThreadAffinityToCores os cores s = Ok (b, s') /\
    g_topology s' = g_topology s.
Proof.
  destruct cores as [|c cores].
  - now exists false, s.
  - rewrite SetThreadAffinityToCores_run. eexists _, _. split; reflexivity.
Qed.

(** C6.  With an empty plan [AffinityApplicator.apply] returns false and
    leaves the whole state as it was: no affinity request reaches the
    kernel, and nothing is logged. *)
Theorem apply_empty_plan (s : State) :
  apply os [] s = Ok (false, s) /\
  option_map affinity_requests (final (apply os [] s)) = Some (affinity_requests s).
Proof. split; reflexivity. Qed.

(** C5.  With a plan that is not empty, [AffinityApplicator.apply] issues
    one affinity request -- its pid argument is [pthread_self()] converted
    to [pid_t] -- whose mask is built from the plan's indices inside
    [[0, total_cores)] only: bit [i] is set exactly when [i] is in the
    plan, inside that range and below [CPU_SETSIZE]; an index outside the
    range sets no bit, and it does not make the call fail either -- the
    returned flag is the kernel's verdict on that request. *)
Theorem apply_drops_out_of_range_cores (c : Z) (cores : list Z) (s : State) :
  let g := g_topology s in
  let mask := mask_of os (filter (in_range g) (c :: cores)) in
  let request := mkRequest (pid_t_of_pthread_t (pthread_self os)) mask in
  exists s',
    apply os (c :: cores) s =
      Ok (fst (sched_setaffinity_answer os (affinity_requests s) request) =? 0, s') /\
    affinity_requests s' = (affinity_requests s ++ [request])%list /\
    g_topology s' = g /\
    (forall i, CPU_ISSET i mask = true ->
               In i (c :: cores) /\ 0 <= i < total_cores g) /\
    (forall i, ~ (0 <= i < total_cores g) -> CPU_ISSET i mask = false) /\
    (forall i, CPU_ISSET i mask = true <->
               In i (c :: cores) /\ 0 <= i < total_cores g /\
               i < CPU_SETSIZE os).
Proof.
  intros g mask request. subst request mask g.
  unfold apply. rewrite SetThreadAffinityToCores_run, <- build_cpuset_filter.
  eexists. split; [reflexivity|]. cbn [affinity_requests g_topology].
  split; [reflexivity|]. split; [reflexivity|]. split; [|split].
  - intros i Hi. apply build_cpuset_bits in Hi. tauto.
  - intros i Hi.
    destruct (CPU_ISSET i (build_cpuset os (g_topology s) (c :: cores))) eqn:E;
      [|reflexivity].
    apply build_cpuset_bits in E. tauto.
  - intros i. apply build_cpuset_bits.
Qed.

(** The pid argument is the thread handle cut to 32 bits, not the handle:
    a 64-bit handle such as 0x7F8DB7852700 arrives as a negative pid. *)
Example pid_t_of_pthread_t_truncates :
  pid_t_of_pthread_t 140246646068288 = -1216015296 /\
  pid_t_of_pthread_t 140246646068288 <> 140246646068288.
Proof. split; [reflexivity | discriminate]. Qed.

End Applicator.

(* ================================================================== *)
(** ** Planning: which cores a role asks for *)

Section Planner.
Import AndroidCpuAffinity TopologyDetector AffinityPlanner AffinityApplicator Process.

Variable os : OS.

(** [plan] is the list the role's function applies: running the function
    is running [apply] on the plan, followed by the role's own log line
    when the pin succeeded. *)
Lemma SetThreadAffinity_applies_plan (r : ThreadRole) (s : State) :
  exists b s',
    apply os (plan (g_topology s) r) s = Ok (b, s') /\
    SetThreadAffinity os r s =
      Ok (tt, if b then fold_left (fun st e => emit e st) (pinned_message r) s'
              else s').
Proof.
  destruct r; cbn [SetThreadAffinity plan];
    try (unfold SetPowerPCThreadAffinity, SetGPUThreadAffinity,
                SetAudioThreadAffinity;
         unfold bind at 1; cbn [gets];
         destruct (is_snapdragon_8_gen_2 (g_topology s)); cbn [negb];
         [ unfold apply, bind;
           match goal with |- context [SetThreadAffinityToCores os ?v s] =>
             destruct (SetThreadAffinityToCores_frame os v s) as (b & s' & -> & _)
           end;
           exists b, s'; split; [reflexivity | destruct b; reflexivity]
         | exists false, s; split; reflexivity ]).
  exists false, s. split; reflexivity.
Qed.

(** A role's function leaves [g_topology] alone. *)
Lemma SetThreadAffinity_frame (r : ThreadRole) (s : State) :
  exists s', SetThreadAffinity os r s = Ok (tt, s') /\ g_topology s' = g_topology s.
Proof.
  destruct (SetThreadAffinity_applies_plan r s) as (b & s1 & Happ & ->).
  unfold apply in Happ.
  destruct (SetThreadAffinityToCores_frame os (plan (g_topology s) r) s)
    as (b' & s2 & Hrun & Hg).
  rewrite Hrun in Happ. injection Happ as <- <-.
  eexists. split; [reflexivity|].
  destruct b'; [|exact Hg]. destruct r; cbn; exact Hg.
Qed.

(** A role whose plan is empty -- [Generic], or any role on an unmatched
    topology -- leaves the process as it was: no request, no log line. *)
Corollary empty_plan_role_is_noop (r : ThreadRole) (s : State) :
  plan (g_topology s) r = [] -> SetThreadAffinity os r s = Ok (tt, s).
Proof.
  intros Hplan.
  destruct (SetThreadAffinity_applies_plan r s) as (b & s' & Happ & ->).
  rewrite Hplan in Happ. cbn in Happ. injection Happ as <- <-. reflexivity.
Qed.

Lemma call_frame (c : ApiCall) (s : State) :
  c <> CallInitialize ->
  exists s', call os c s = Ok (tt, s') /\ g_topology s' = g_topology s.
Proof.
  intros Hc. destruct c; cbn [call]; try contradiction.
  - now exists s.
  - apply (SetThreadAffinity_frame PowerPC).
  - apply (SetThreadAffinity_frame GPU).
  - apply (SetThreadAffinity_frame Audio).
  - apply (SetThreadAffinity_frame Generic).
  - unfold SetCpuGovernorPerformance. destruct (platform os).
    + unfold bind; cbn [gets].
      destruct (is_snapdragon_8_gen_2 (g_topology s)); cbn [negb];
        eexists; split; reflexivity.
    + now exists s.
  - exists s. split; [|reflexivity].
    unfold GetRecommendedThreadCount, bind; cbn [gets].
    destruct (is_snapdragon_8_gen_2 (g_topology s)); reflexivity.
Qed.

(** [Initialize], run in a process that holds the initial topology or an
    already detected one, leaves the detected topology. *)
Lemma Initialize_held (s : State) :
  held_topology os (g_topology s) ->
  exists s', Initialize os s = Ok (tt, s') /\ detect os = Some (g_topology s').
Proof.
  intros Hheld.
  destruct (Initialize_run os s) as (s' & Hrun & _ & Hg).
  exists s'. split; [exact Hrun|].
  destruct (detect_run os) as [[Hsig Hd] | [Hsig Hd]];
    destruct Hg as [[Hsig' ->] | [Hsig' ->]]; try contradiction.
  - exact Hd.
  - rewrite Hd. destruct Hheld as [-> | Hs]; [reflexivity|].
    rewrite Hd in Hs. injection Hs as <-. reflexivity.
Qed.

Lemma call_preserves_detected (c : ApiCall) (s : State) :
  detect os = Some (g_topology s) ->
  exists s', call os c s = Ok (tt, s') /\ detect os = Some (g_topology s').
Proof.
  intros Hd.
  assert (Hdec : c = CallInitialize \/ c <> CallInitialize)
    by (destruct c; (now left) || (right; discriminate)).
  destruct Hdec as [-> | Hc].
  - apply Initialize_held. now right.
  - destruct (call_frame c s Hc) as (s' & Hrun & Hg).
    exists s'. rewrite Hg. auto.
Qed.

Lemma call_preserves_held (c : ApiCall) (s : State) :
  held_topology os (g_topology s) ->
  exists s', call os c s = Ok (tt, s') /\ held_topology os (g_topology s').
Proof.
  intros Hheld.
  assert (Hdec : c = CallInitialize \/ c <> CallInitialize)
    by (destruct c; (now left) || (right; discriminate)).
  destruct Hdec as [-> | Hc].
  - destruct (Initialize_held s Hheld) as (s' & Hrun & Hd).
    exists s'. split; [exact Hrun | now right].
  - destruct (call_frame c s Hc) as (s' & Hrun & Hg).
    exists s'. rewrite Hg. auto.
Qed.

(** Every run of interface calls terminates without a fault, and the
    topology it ends with is a held one. *)
Lemma run_held (cs : list ApiCall) (s : State) :
  held_topology os (g_topology s) ->
  exists s', run os cs s = Ok (tt, s') /\ held_topology os (g_topology s').
Proof.
  revert s. induction cs as [|c cs IH]; intros s Hheld; cbn [run].
  - now exists s.
  - destruct (call_preserves_held c s Hheld) as (s1 & Hc & H1).
    destruct (IH s1 H1) as (s2 & Hr & H2).
    exists s2. unfold bind. rewrite Hc. auto.
Qed.

Lemma run_preserves_detected (cs : list ApiCall) (s : State) :
  detect os = Some (g_topology s) ->
  exists s', run os cs s = Ok (tt, s') /\ detect os = Some (g_topology s').
Proof.
  revert s. induction cs as [|c cs IH]; intros s Hd; cbn [run].
  - now exists s.
  - destruct (call_preserves_detected c s Hd) as (s1 & Hc & H1).
    destruct (IH s1 H1) as (s2 & Hr & H2).
    exists s2. unfold bind. rewrite Hc. auto.
Qed.

Lemma run_app (cs1 cs2 : list ApiCall) (s : State) :
  run os (cs1 ++ cs2) s = (run os cs1 ;; run os cs2) s.
Proof.
  revert s. induction cs1 as [|c cs1 IH]; intros s; cbn [run app].
  - reflexivity.
  - unfold bind. unfold bind in IH.
    destruct (call os c s) as [[[] s1]|]; [|reflexivity].
    apply IH.
Qed.

(** Once [Initialize] has been called, the process holds the detected
    topology for good: whatever was called before and is called after. *)
Lemma initialized_run (before after : list ApiCall) :
  exists s,
    run os (before ++ CallInitialize :: after) initial_state = Ok (tt, s) /\
    detect os = Some (g_topology s).
Proof.
  destruct (run_held before initial_state) as (s0 & Hrun0 & Hheld); [now left|].
  destruct (Initialize_held s0 Hheld) as (s1 & Hinit & Hd1).
  destruct (run_preserves_detected after s1 Hd1) as (s2 & Hrun2 & Hd2).
  exists s2. split; [|exact Hd2].
  rewrite run_app. unfold bind at 1. rewrite Hrun0. cbn [run call].
  unfold bind at 1. rewrite Hinit. exact Hrun2.
Qed.

(** The plans of a held topology. *)
Lemma plan_held (g : CpuTopology) (r : ThreadRole) :
  held_topology os g ->
  plan g r =
    if is_snapdragon_8_gen_2 g
    then match r with
         | PowerPC => [1; 2; 3; 4]
         | GPU => [0; 1; 2; 3; 4]
         | Audio => [5; 6; 7]
         | Generic => []
         end
    else [].
Proof.
  intros [-> | Hd].
  - destruct r; reflexivity.
  - destruct (detect_run os) as [[_ Hd'] | [_ Hd']];
      rewrite Hd' in Hd; injection Hd as <-; destruct r; reflexivity.
Qed.

(** C2.  Whatever interface calls a process has made, the topology [g] it
    then holds gives these plans: when [g] is matched, PowerPC -> the Gold
    cores [1;2;3;4], GPU -> Prime and Gold [0;1;2;3;4], Audio -> the
    Silver cores [5;6;7]; when [g] is unmatched, the empty plan for every
    role; and for Generic the empty plan in both cases.  The last two
    facts hold of any topology value at all.  The plan is what the role's
    pinning function applies: running it is running [apply] on the plan
    (and logging the role's line when the pin succeeded). *)
Theorem plan_by_role (cs : list ApiCall) (r : ThreadRole) :
  (exists s,
     run os cs initial_state = Ok (tt, s) /\
     plan (g_topology s) r =
       if is_snapdragon_8_gen_2 (g_topology s)
       then match r with
            | PowerPC => [1; 2; 3; 4]
            | GPU => [0; 1; 2; 3; 4]
            | Audio => [5; 6; 7]
            | Generic => []
            end
       else []) /\
  (forall g, plan g Generic = []) /\
  (forall g, plan (set_is_snapdragon_8_gen_2 false g) r = []) /\
  (forall s, exists pinned s',
     apply os (plan (g_topology s) r) s = Ok (pinned, s') /\
     SetThreadAffinity os r s =
       Ok (tt, if pinned
               then fold_left (fun st e => emit e st) (pinned_message r) s'
               else s')).
Proof.
  split; [|split; [|split]].
  - destruct (run_held cs initial_state) as (s & Hrun & Hheld); [now left|].
    exists s. split; [exact Hrun | now apply plan_held].
  - reflexivity.
  - intros g. destruct r; reflexivity.
  - apply SetThreadAffinity_applies_plan.
Qed.

End Planner.

(* ================================================================== *)
(** ** The topology invariant and the recommended thread count *)

Section Invariant.
Import AndroidCpuAffinity TopologyDetector AffinityPlanner Process.

(** The spec's first scenario: a "kalama" model by "QTI" with 8 cores. *)
Example detect_kalama_8 :
  let os := android_device "kalama" "QTI" 8 in
  detect os = Some (mkTopology true 0 1 4 5 7 8) /\
  clusters (mkTopology true 0 1 4 5 7 8) = reference_clusters /\
  plan (mkTopology true 0 1 4 5 7 8) PowerPC = [1; 2; 3; 4] /\
  plan (mkTopology true 0 1 4 5 7 8) GPU = [0; 1; 2; 3; 4] /\
  plan (mkTopology true 0 1 4 5 7 8) Audio = [5; 6; 7].
Proof. repeat split. Qed.

Lemma reference_clusters_disjoint :
  ForallOrdPairs (fun c1 c2 => forall i, ~ (covers c1 i /\ covers c2 i))
                 reference_clusters.
Proof.
  unfold reference_clusters.
  repeat constructor; unfold covers; cbn; intros i; lia.
Qed.

Lemma reference_clusters_within (total : Z) :
  Forall (fun c => forall i, covers c i -> 0 <= i < total) reference_clusters
  <-> 8 <= total.
Proof.
  unfold reference_clusters. split.
  - intros H. rewrite Forall_forall in H.
    specialize (H (mkCluster Silver 5 7) ltac:(cbn; auto) 7).
    unfold covers in H; cbn in H. lia.
  - intros H. repeat constructor; unfold covers in *; cbn in *; lia.
Qed.

(** C4 as first stated fails.  A reference-signature device that reports
    4 cores: the Silver range 5-7 lies outside [[0, 4)], so the invariant
    is broken. *)
Lemma invariant_broken_on_4_core_match :
  detect (android_device "kalama" "QTI" 4) = Some (mkTopology true 0 1 4 5 7 4) /\
  ~ invariant (mkTopology true 0 1 4 5 7 4).
Proof.
  split; [reflexivity|].
  intros (_ & _ & Hwithin & _).
  apply (reference_clusters_within 4) in Hwithin. lia.
Qed.

Lemma invariant_split (g : CpuTopology) :
  ranges_disjoint g -> ranges_nonnegative g -> unmatched_is_empty g ->
  (ranges_within_total g <->
     is_snapdragon_8_gen_2 g = false \/ 8 <= total_cores g) ->
  ranges_disjoint g /\
  ranges_nonnegative g /\
  unmatched_is_empty g /\
  (ranges_within_total g <->
     is_snapdragon_8_gen_2 g = false \/ 8 <= total_cores g) /\
  (invariant g <->
     is_snapdragon_8_gen_2 g = false \/ 8 <= total_cores g).
Proof.
  intros Hd Hn He Hw. unfold invariant. rewrite <- Hw. tauto.
Qed.

(** C4, amended.  After [TopologyDetector.detect], for every input: the
    cluster ranges are pairwise disjoint and non-negative, and an
    unmatched topology has an empty cluster list; the ranges lie inside
    [[0, total_cores)] exactly when the topology is unmatched or the
    recorded core count is at least 8. *)
Theorem detect_invariant (os : OS) :
  exists g,
    detect os = Some g /\
    ranges_disjoint g /\
    ranges_nonnegative g /\
    unmatched_is_empty g /\
    (ranges_within_total g <->
       is_snapdragon_8_gen_2 g = false \/ 8 <= total_cores g) /\
    (invariant g <->
       is_snapdragon_8_gen_2 g = false \/ 8 <= total_cores g).
Proof.
  destruct (detect_run os) as [[_ Hd] | [_ Hd]]; eexists; (split; [exact Hd|]);
    apply invariant_split.
  - exact reference_clusters_disjoint.
  - repeat constructor; cbn; lia.
  - intros H; discriminate.
  - unfold ranges_within_total.
    change (clusters _) with reference_clusters. cbn [total_cores is_snapdragon_8_gen_2].
    rewrite reference_clusters_within. intuition discriminate.
  - constructor.
  - constructor.
  - intros _; reflexivity.
  - split; [now left | intros _; constructor].
Qed.

End Invariant.

Section ThreadCount.
Import AndroidCpuAffinity TopologyDetector Process.

Variable os : OS.

(** [GetRecommendedThreadCount] reads [g_topology] and changes nothing. *)
Lemma GetRecommendedThreadCount_run (s : State) :
  GetRecommendedThreadCount s =
    Ok (if is_snapdragon_8_gen_2 (g_topology s) then 4
        else total_cores (g_topology s), s).
Proof.
  unfold GetRecommendedThreadCount, bind; cbn [gets].
  destruct (is_snapdragon_8_gen_2 (g_topology s)); reflexivity.
Qed.

(** C10.  In a process that has called [Initialize] -- whatever it called
    before and after -- [GetRecommendedThreadCount] returns 4 when the
    device is matched as the reference one, and otherwise the processor
    count read from the OS (as the [int] it was stored as); the device is
    matched exactly when it shows the reference signature. *)
Theorem recommended_thread_count (before after : list ApiCall) :
  exists s,
    run os (before ++ CallInitialize :: after) initial_state = Ok (tt, s) /\
    (is_snapdragon_8_gen_2 (g_topology s) = true <-> reference_signature os) /\
    GetRecommendedThreadCount s =
      Ok (if is_snapdragon_8_gen_2 (g_topology s) then 4
          else int_of_long (sysconf_NPROCESSORS_CONF os), s).
Proof.
  destruct (initialized_run os before after) as (s & Hrun & Hd).
  exists s. split; [exact Hrun|].
  rewrite GetRecommendedThreadCount_run.
  destruct (detect_run os) as [[Hsig Hd'] | [Hsig Hd']];
    rewrite Hd' in Hd; injection Hd as <-; cbn; split; try reflexivity.
  - tauto.
  - split; [discriminate | intros H; contradiction].
Qed.

End ThreadCount.

(* ================================================================== *)
(** ** GPU detection and the Adreno 740 policy *)

Section Gpu.
Import AdrenoOptimizations GpuDetector OptimizationPolicyBuilder.

Lemma strstr_found_run (s needle : string) (l : Log) :
  strstr_found (Some s) needle l = Ok (not_null (strstr s needle), l).
Proof. reflexivity. Qed.

Lemma IsAdreno740_run (device_name : option string) (vendor_id device_id : Z)
    (l : Log) :
  exists b l',
    IsAdreno740 device_name vendor_id device_id l = Ok (b, l') /\
    (b = true <->
       vendor_id = QUALCOMM_VENDOR_ID /\
       (device_id = ADRENO_740_ID_1 \/ device_id = ADRENO_740_ID_2 \/
        name_matches device_name)).
Proof.
  unfold IsAdreno740, name_matches.
  destruct (vendor_id =? QUALCOMM_VENDOR_ID) eqn:Hv; cbn [negb].
  - apply Z.eqb_eq in Hv.
    destruct ((device_id =? ADRENO_740_ID_1) || (device_id =? ADRENO_740_ID_2))
      eqn:Hd.
    + eexists true, _. split; [reflexivity|].
      apply orb_true_iff in Hd. rewrite !Z.eqb_eq in Hd. tauto.
    + apply orb_false_iff in Hd as [Hd1 Hd2].
      apply Z.eqb_neq in Hd1, Hd2.
      destruct device_name as [s|].
      * unfold andM, orM, bind at 1 2 3, ret at 1. cbn [not_null].
        rewrite !strstr_found_run.
        destruct (not_null (strstr s "Adreno (TM) 740")) eqn:H1;
          [|rewrite ?strstr_found_run;
            destruct (not_null (strstr s "Adreno 740")) eqn:H2].
        -- eexists true, _. split; [reflexivity|].
           apply strstr_contains in H1. split; [|reflexivity].
           intros _. split; [exact Hv|]. right; right. exists s. auto.
        -- eexists true, _. split; [reflexivity|].
           apply strstr_contains in H2. split; [|reflexivity].
           intros _. split; [exact Hv|]. right; right. exists s. auto.
        -- exists false, l. split; [reflexivity|].
           split; [discriminate|].
           intros (_ & [H | [H | (s' & Hs & H)]]); try contradiction.
           injection Hs as <-.
           rewrite <- !strstr_contains in H.
           destruct H as [H | H]; congruence.
      * exists false, l. split; [reflexivity|].
        split; [discriminate|].
        intros (_ & [H | [H | (s' & Hs & _)]]); try contradiction. discriminate.
  - apply Z.eqb_neq in Hv. exists false, l. split; [reflexivity|].
    split; [discriminate | intros [H _]; contradiction].
Qed.

Lemma IsTurnipDriver_run (device_name : option string) (l : Log) :
  exists b l',
    IsTurnipDriver device_name l = Ok (b, l') /\
    (b = true <->
       exists s, device_name = Some s /\
                 (contains s "turnip" \/ contains s "Turnip" \/ contains s "Mesa")).
Proof.
  unfold IsTurnipDriver. destruct device_name as [s|]; cbn [not_null negb].
  - unfold orM, bind, ret. rewrite !strstr_found_run.
    destruct (not_null (strstr s "turnip")) eqn:H1;
      [|rewrite ?strstr_found_run;
        destruct (not_null (strstr s "Turnip")) eqn:H2];
      rewrite ?strstr_found_run;
      [| |destruct (not_null (strstr s "Mesa")) eqn:H3];
      eexists _, _; (split; [reflexivity|]).
    + apply strstr_contains in H1. split; [|reflexivity]. eauto.
    + apply strstr_contains in H2. split; [|reflexivity]. eauto.
    + apply strstr_contains in H3. split; [|reflexivity]. eauto 6.
    + split; [discriminate|]. intros (s' & Hs & H). injection Hs as <-.
      rewrite <- !strstr_contains in H. intuition congruence.
  - exists false, l. split; [reflexivity|].
    split; [discriminate | intros (s & Hs & _); discriminate].
Qed.

(** C3.  For every device name (null or not), vendor id and device id,
    [IsAdreno740] returns without a fault, and it answers true -- the
    family is [Adreno740] -- if and only if the vendor id is 0x5143 and
    either the device id is 0x43050A01 or 0x43051401 or the name contains
    "Adreno (TM) 740" or "Adreno 740".  So another vendor id gives
    [UnknownFamily] whatever the rest, and the Qualcomm id with a
    reference device id gives [Adreno740] whatever the name. *)
Theorem detect_family (device_name : option string) (vendor_id device_id : Z)
    (l : Log) :
  exists is_adreno l1 profile l2,
    IsAdreno740 device_name vendor_id device_id l = Ok (is_adreno, l1) /\
    detect device_name vendor_id device_id l = Ok (profile, l2) /\
    (is_adreno = true <-> family profile = Adreno740) /\
    (family profile = Adreno740 <->
       vendor_id = 0x5143 /\
       (device_id = 0x43050A01 \/ device_id = 0x43051401 \/
        name_matches device_name)) /\
    (vendor_id <> 0x5143 -> family profile = UnknownFamily) /\
    (vendor_id = 0x5143 ->
     device_id = 0x43050A01 \/ device_id = 0x43051401 ->
     family profile = Adreno740).
Proof.
  destruct (IsAdreno740_run device_name vendor_id device_id l)
    as (b & l1 & Hrun & Hb).
  destruct (IsTurnipDriver_run device_name l1) as (t & l2 & Htur & _).
  exists b, l1, (mkProfile (if b then Adreno740 else UnknownFamily)
                           (if t then Turnip else ProprietaryOrUnknown)), l2.
  split; [exact Hrun|]. split.
  { unfold detect, bind. rewrite Hrun, Htur. reflexivity. }
  cbn [family].
  change QUALCOMM_VENDOR_ID with 0x5143 in Hb.
  change ADRENO_740_ID_1 with 0x43050A01 in Hb.
  change ADRENO_740_ID_2 with 0x43051401 in Hb.
  assert (Hfam : b = true <-> (if b then Adreno740 else UnknownFamily) = Adreno740)
    by (destruct b; split; congruence).
  split; [exact Hfam|]. split; [rewrite <- Hfam; exact Hb|]. split.
  - intros Hv. destruct b; [|reflexivity]. destruct Hb as [Hb _].
    destruct (Hb eq_refl) as [Hq _]. contradiction.
  - intros Hv Hd. apply Hfam, Hb. tauto.
Qed.

(** With a null name nothing is read through the pointer: both functions
    return, whatever the ids. *)
Lemma detect_null_run (vendor_id device_id : Z) (l : Log) :
  IsTurnipDriver None l = Ok (false, l) /\
  IsAdreno740 None vendor_id device_id l =
    (if (vendor_id =? QUALCOMM_VENDOR_ID) &&
        ((device_id =? ADRENO_740_ID_1) || (device_id =? ADRENO_740_ID_2))
     then Ok (true,
              emit (mkLog LINFO VIDEO
                      "Adreno 740 detected via device ID: 0x{:08X}"
                      [ArgInt device_id]) l)
     else Ok (false, l)).
Proof.
  split; [reflexivity|]. unfold IsAdreno740.
  destruct (vendor_id =? QUALCOMM_VENDOR_ID); cbn [negb andb]; [|reflexivity].
  destruct ((device_id =? ADRENO_740_ID_1) || (device_id =? ADRENO_740_ID_2));
    reflexivity.
Qed.

(** C7.  On a null device name and a device id that is neither reference
    id, [GpuDetector.detect] returns -- no fault, so the null pointer is
    never read through -- with family [UnknownFamily] and a driver that is
    not Turnip; [IsAdreno740] and [IsTurnipDriver] both answer false and
    log nothing. *)
Theorem detect_null_name (vendor_id device_id : Z) (l : Log) :
  device_id <> 0x43050A01 ->
  device_id <> 0x43051401 ->
  IsAdreno740 None vendor_id device_id l = Ok (false, l) /\
  IsTurnipDriver None l = Ok (false, l) /\
  detect None vendor_id device_id l =
    Ok ({| family := UnknownFamily; driver := ProprietaryOrUnknown |}, l).
Proof.
  intros H1 H2.
  destruct (detect_null_run vendor_id device_id l) as [Ht Ha].
  apply Z.eqb_neq in H1, H2.
  change 0x43050A01 with ADRENO_740_ID_1 in H1.
  change 0x43051401 with ADRENO_740_ID_2 in H2.
  rewrite H1, H2, andb_false_r in Ha.
  split; [exact Ha|]. split; [exact Ht|].
  unfold detect, bind. rewrite Ha, Ht. reflexivity.
Qed.

Lemma detect_null_name_witness :
  (0xDEADBEEF <> 0x43050A01 /\ 0xDEADBEEF <> 0x43051401) /\
  (IsAdreno740 None 0x5143 0xDEADBEEF [] = Ok (false, []) /\
   IsTurnipDriver None [] = Ok (false, []) /\
   detect None 0x5143 0xDEADBEEF [] =
     Ok ({| family := UnknownFamily; driver := ProprietaryOrUnknown |}, [])).
Proof.
  split; [split; lia | apply (detect_null_name 0x5143 0xDEADBEEF []); lia].
Defined.

(** C8.  [detect "Adreno (TM) 740" 0x5143 0xDEADBEEF]: the device id is
    not a reference id, the name check succeeds and is what gets logged,
    and the family is [Adreno740]; the policy built for that profile has
    [max_sets] = 16384 and a pipeline cache of 512 * 1024 * 1024 bytes. *)
Theorem detect_by_name_scenario (l : Log) :
  let by_name :=
    mkLog LINFO VIDEO "Adreno 740 detected via device name: {}"
          [ArgStr "Adreno (TM) 740"] in
  let profile := {| family := Adreno740; driver := ProprietaryOrUnknown |} in
  IsAdreno740 (Some "Adreno (TM) 740") 0x5143 0xDEADBEEF l =
    Ok (true, (l ++ [by_name])%list) /\
  detect (Some "Adreno (TM) 740") 0x5143 0xDEADBEEF l =
    Ok (profile, (l ++ [by_name])%list) /\
  exists policy l',
    build profile l = Ok (policy, l') /\
    max_sets (descriptor_pool policy) = 16384 /\
    pipeline_cache_size policy = 512 * 1024 * 1024 /\
    result (GetOptimalDescriptorPoolSizes l) = Some (descriptor_pool policy) /\
    GetOptimalPipelineCacheSize = pipeline_cache_size policy.
Proof.
  cbv zeta. split; [reflexivity|]. split; [reflexivity|].
  eexists _, _. split; [reflexivity|]. repeat split.
Qed.

(** C9.  The extensions returned do not depend on [has_turnip]: both
    calls return the same six names in the same order, from any log
    state; so do the policies built for a Turnip and a non-Turnip
    profile. *)
Theorem extensions_independent_of_driver (l1 l2 : Log) (fam1 fam2 : GpuFamily) :
  result (GetOptimalExtensions true l1) = result (GetOptimalExtensions false l2) /\
  result (GetOptimalExtensions false l2) =
    Some ["VK_KHR_shader_non_semantic_info"; "VK_EXT_scalar_block_layout";
          "VK_KHR_spirv_1_4"; "VK_KHR_synchronization_2";
          "VK_EXT_memory_budget"; "VK_EXT_memory_priority"] /\
  option_map extensions (result (build (mkProfile fam1 Turnip) l1)) =
  option_map extensions (result (build (mkProfile fam2 ProprietaryOrUnknown) l2)).
Proof. repeat split. Qed.

(** What does depend on [has_turnip] is the log, not the value. *)
Remark extensions_log_depends_on_driver (l : Log) :
  final (GetOptimalExtensions true l) =
    Some (l ++ [mkLog LINFO VIDEO "Adding Turnip-specific extensions" []])%list /\
  final (GetOptimalExtensions false l) = Some l.
Proof. split; reflexivity. Qed.

End Gpu.

(* ================================================================== *)
(** * Further properties of the CPU-affinity code *)

Section InitializeEffects.
Import AndroidCpuAffinity TopologyDetector Process.

Variable os : OS.

Lemma DetectSnapdragon8Gen2_state (s : State) :
  exists b : bool,
    DetectSnapdragon8Gen2 os s =
      Ok (b, if b
             then emit (mkLog LINFO COMMON "Detected Snapdragon 8 Gen 2 (SM8550)" []) s
             else s) /\
    (b = true <-> reference_signature os).
Proof.
  destruct (DetectSnapdragon8Gen2_run os s) as (b & s' & Hrun & Hb & _).
  exists b. split; [|exact Hb].
  rewrite Hrun. revert Hrun. unfold DetectSnapdragon8Gen2.
  destruct (platform os) as [getprop|].
  - match goal with |- context [if ?c then _ else _] => destruct c end;
      cbn; intros H; injection H as <- <-; reflexivity.
  - cbn. intros H; injection H as <- <-; reflexivity.
Qed.

(** X1.  [Initialize], from any state: it never asks the kernel for
    anything, it records [(int)sysconf(_SC_NPROCESSORS_CONF)], and then
    either the device shows the reference signature, the topology becomes
    the reference one and two INFO lines are logged (the detection and the
    layout 0, 1-4, 5-7 with the total), or it does not, only [total_cores]
    changes and one WARNING line is logged. *)
Theorem Initialize_effects (s : State) :
  let n := int_of_long (sysconf_NPROCESSORS_CONF os) in
  exists s',
    Initialize os s = Ok (tt, s') /\
    affinity_requests s' = affinity_requests s /\
    total_cores (g_topology s') = n /\
    ((reference_signature os /\
      g_topology s' = reference_topology n /\
      log s' =
        (log s ++
         [mkLog LINFO COMMON "Detected Snapdragon 8 Gen 2 (SM8550)" [];
          mkLog LINFO COMMON
            "CPU Topology: Prime={}, Gold={}-{}, Silver={}-{}, Total={}"
            [ArgInt 0; ArgInt 1; ArgInt 4; ArgInt 5; ArgInt 7; ArgInt n]])%list)
     \/
     (~ reference_signature os /\
      g_topology s' = set_total_cores n (g_topology s) /\
      log s' =
        (log s ++
         [mkLog LWARNING COMMON
            "Not a Snapdragon 8 Gen 2 device, CPU affinity disabled" []])%list)).
Proof.
  intros n. subst n.
  unfold Initialize, InitializeCpuTopology.
  unfold bind at 1. cbn [update_topology modify]. unfold bind at 1.
  match goal with |- context [DetectSnapdragon8Gen2 os ?s0] =>
    destruct (DetectSnapdragon8Gen2_state s0) as (b & Hrun & Hb)
  end.
  rewrite Hrun. destruct b.
  - eexists. split; [reflexivity|]. cbn.
    split; [reflexivity|]. split; [reflexivity|].
    left. split; [now apply Hb|]. split; [reflexivity|].
    rewrite <- app_assoc. reflexivity.
  - eexists. split; [reflexivity|]. cbn.
    split; [reflexivity|]. split; [reflexivity|].
    right. split; [intros H; apply Hb in H; discriminate|].
    split; reflexivity.
Qed.

(** X2.  [Initialize] is idempotent on the topology, from any state: a
    second call leaves [g_topology] exactly as the first one left it. *)
Theorem Initialize_idempotent (s : State) :
  exists s1 s2,
    Initialize os s = Ok (tt, s1) /\
    Initialize os s1 = Ok (tt, s2) /\
    g_topology s2 = g_topology s1 /\
    affinity_requests s2 = affinity_requests s.
Proof.
  destruct (Initialize_run os s) as (s1 & Hrun1 & Ha1 & Hg1).
  destruct (Initialize_run os s1) as (s2 & Hrun2 & Ha2 & Hg2).
  exists s1, s2. split; [exact Hrun1|]. split; [exact Hrun2|].
  split; [|congruence].
  destruct Hg1 as [[Hs1 Hg1] | [Hs1 Hg1]];
    destruct Hg2 as [[Hs2 Hg2] | [Hs2 Hg2]]; try contradiction.
  - congruence.
  - rewrite Hg2, Hg1. reflexivity.
Qed.

End InitializeEffects.

Section ProcessRuns.
Import AndroidCpuAffinity TopologyDetector AffinityPlanner AffinityApplicator Process.

Variable os : OS.

(** A plan that is not empty comes from a matched topology. *)
Lemma plan_nonempty_matched (g : CpuTopology) (r : ThreadRole) :
  plan g r <> [] -> is_snapdragon_8_gen_2 g = true.
Proof.
  destruct r; cbn [plan]; destruct (is_snapdragon_8_gen_2 g); congruence.
Qed.

(** What a role's pinning function adds to the state. *)
Lemma SetThreadAffinity_effect (r : ThreadRole) (s : State) :
  exists s' evs rs,
    SetThreadAffinity os r s = Ok (tt, s') /\
    g_topology s' = g_topology s /\
    log s' = (log s ++ evs)%list /\
    affinity_requests s' = (affinity_requests s ++ rs)%list /\
    (rs = [] \/
     (is_snapdragon_8_gen_2 (g_topology s) = true /\
      rs = [mkRequest (pid_t_of_pthread_t (pthread_self os))
              (build_cpuset os (g_topology s) (plan (g_topology s) r))])).
Proof.
  destruct (plan (g_topology s) r) as [|c cores] eqn:Hp.
  - exists s, [], []. rewrite (empty_plan_role_is_noop os r s Hp).
    rewrite !app_nil_r. repeat split. now left.
  - assert (Hm : is_snapdragon_8_gen_2 (g_topology s) = true)
      by (apply (plan_nonempty_matched _ r); rewrite Hp; discriminate).
    destruct (SetThreadAffinity_applies_plan os r s) as (b & s1 & Happ & Hrun).
    rewrite Hp in Happ. unfold apply in Happ.
    rewrite SetThreadAffinityToCores_run in Happ. injection Happ as Hb Hs1.
    rewrite Hrun. subst s1.
    destruct b.
    + destruct r; try discriminate;
        eexists _, [_; _], [_]; (split; [reflexivity|]); cbn;
        rewrite <- app_assoc; repeat split; right; split; auto.
    + eexists _, [_], [_]. split; [reflexivity|]. cbn. repeat split.
      right. split; auto.
Qed.

Lemma Initialize_grows (s : State) :
  exists s' evs,
    Initialize os s = Ok (tt, s') /\
    log s' = (log s ++ evs)%list /\
    affinity_requests s' = affinity_requests s.
Proof.
  unfold Initialize, InitializeCpuTopology.
  unfold bind at 1. cbn [update_topology modify]. unfold bind at 1.
  match goal with |- context [DetectSnapdragon8Gen2 os ?s0] =>
    destruct (DetectSnapdragon8Gen2_state os s0) as (b & Hrun & _)
  end.
  rewrite Hrun. destruct b.
  - eexists _, [_; _]. split; [reflexivity|]. cbn.
    rewrite <- app_assoc. split; reflexivity.
  - eexists _, [_]. split; [reflexivity|]. cbn. split; reflexivity.
Qed.

Lemma SetCpuGovernorPerformance_effect (s : State) :
  exists s' evs,
    SetCpuGovernorPerformance os s = Ok (tt, s') /\
    g_topology s' = g_topology s /\
    log s' = (log s ++ evs)%list /\
    affinity_requests s' = affinity_requests s.
Proof.
  unfold SetCpuGovernorPerformance.
  destruct (platform os);
    [unfold bind; cbn [gets];
     destruct (is_snapdragon_8_gen_2 (g_topology s)); cbn [negb]|].
  - eexists _, [_]. split; [reflexivity|]. cbn. auto.
  - exists s, []. rewrite app_nil_r. auto.
  - exists s, []. rewrite app_nil_r. auto.
Qed.

Lemma call_effect (c : ApiCall) (s : State) :
  exists s' evs rs,
    call os c s = Ok (tt, s') /\
    (c <> CallInitialize -> g_topology s' = g_topology s) /\
    log s' = (log s ++ evs)%list /\
    affinity_requests s' = (affinity_requests s ++ rs)%list /\
    (rs = [] \/
     (is_pinning_call c = true /\
      is_snapdragon_8_gen_2 (g_topology s) = true /\
      exists r,
        rs = [mkRequest (pid_t_of_pthread_t (pthread_self os))
                (build_cpuset os (g_topology s) (plan (g_topology s) r))])).
Proof.
  assert (Hpin : forall r,
    is_pinning_call c = true ->
    call os c s = SetThreadAffinity os r s ->
    exists s' evs rs,
      call os c s = Ok (tt, s') /\
      (c <> CallInitialize -> g_topology s' = g_topology s) /\
      log s' = (log s ++ evs)%list /\
      affinity_requests s' = (affinity_requests s ++ rs)%list /\
      (rs = [] \/
       (is_pinning_call c = true /\
        is_snapdragon_8_gen_2 (g_topology s) = true /\
        exists r,
          rs = [mkRequest (pid_t_of_pthread_t (pthread_self os))
                  (build_cpuset os (g_topology s) (plan (g_topology s) r))]))).
  { intros r Hc Heq.
    destruct (SetThreadAffinity_effect r s) as (s' & evs & rs & Hrun & Hg & Hl & Ha & Hrs).
    exists s', evs, rs. rewrite Heq. repeat split; auto.
    destruct Hrs as [-> | [Hm ->]]; [now left | right; eauto]. }
  assert (Hquiet : forall s' evs,
    call os c s = Ok (tt, s') ->
    g_topology s' = g_topology s ->
    log s' = (log s ++ evs)%list ->
    affinity_requests s' = affinity_requests s ->
    exists s' evs rs,
      call os c s = Ok (tt, s') /\
      (c <> CallInitialize -> g_topology s' = g_topology s) /\
      log s' = (log s ++ evs)%list /\
      affinity_requests s' = (affinity_requests s ++ rs)%list /\
      (rs = [] \/
       (is_pinning_call c = true /\
        is_snapdragon_8_gen_2 (g_topology s) = true /\
        exists r,
          rs = [mkRequest (pid_t_of_pthread_t (pthread_self os))
                  (build_cpuset os (g_topology s) (plan (g_topology s) r))]))).
  { intros s' evs Hrun Hg Hl Ha. exists s', evs, [].
    rewrite app_nil_r. repeat split; auto. }
  destruct c.
  - destruct (Initialize_grows s) as (s' & evs & Hrun & Hl & Ha).
    exists s', evs, []. rewrite app_nil_r.
    split; [exact Hrun|]. split; [congruence|]. auto.
  - apply (Hquiet s []); try reflexivity. now rewrite app_nil_r.
  - apply (Hpin PowerPC); reflexivity.
  - apply (Hpin GPU); reflexivity.
  - apply (Hpin Audio); reflexivity.
  - apply (Hquiet s []); try reflexivity. now rewrite app_nil_r.
  - destruct (SetCpuGovernorPerformance_effect s) as (s' & evs & Hrun & Hg & Hl & Ha).
    apply (Hquiet s' evs); auto.
  - apply (Hquiet s []); try reflexivity.
    + cbn [call]. unfold bind. rewrite GetRecommendedThreadCount_run. reflexivity.
    + now rewrite app_nil_r.
Qed.

(** X3.  From any state, a run of interface calls only appends to the log
    and to the kernel requests, and it makes at most one request per
    pinning call ([SetPowerPC/GPU/AudioThreadAffinity]): no call retries,
    and no other call asks the kernel for anything. *)
Theorem run_requests_bounded (cs : list ApiCall) (s0 : State) :
  exists s evs rs,
    run os cs s0 = Ok (tt, s) /\
    log s = (log s0 ++ evs)%list /\
    affinity_requests s = (affinity_requests s0 ++ rs)%list /\
    (List.length rs <= List.length (filter is_pinning_call cs))%nat.
Proof.
  revert s0. induction cs as [|c cs IH]; intros s0; cbn [run].
  - exists s0, [], []. rewrite !app_nil_r. repeat split. apply le_n.
  - destruct (call_effect c s0) as (s1 & evs1 & rs1 & Hc & _ & Hl1 & Ha1 & Hrs1).
    destruct (IH s1) as (s2 & evs2 & rs2 & Hr & Hl2 & Ha2 & Hlen).
    exists s2, (evs1 ++ evs2)%list, (rs1 ++ rs2)%list.
    unfold bind. rewrite Hc. split; [exact Hr|].
    rewrite Hl2, Hl1, Ha2, Ha1, <- !app_assoc. repeat split.
    rewrite length_app. cbn [filter].
    destruct Hrs1 as [-> | (Hpin & _ & r & ->)].
    + destruct (is_pinning_call c); cbn [List.length]; lia.
    + rewrite Hpin. cbn [List.length]. lia.
Qed.

Lemma held_matched_is_reference (g : CpuTopology) :
  held_topology os g ->
  is_snapdragon_8_gen_2 g = true ->
  g = reference_topology (int_of_long (sysconf_NPROCESSORS_CONF os)).
Proof.
  intros [-> | Hd] Hm; [discriminate|].
  destruct (detect_run os) as [[_ Hd'] | [_ Hd']];
    rewrite Hd' in Hd; injection Hd as <-; [reflexivity | discriminate].
Qed.

(** The request of a plan of the reference topology: the converted thread
    handle, and processors 0..7 below the recorded count. *)
Lemma safe_request_of_reference_plan (r : ThreadRole) :
  let n := int_of_long (sysconf_NPROCESSORS_CONF os) in
  let rq := mkRequest (pid_t_of_pthread_t (pthread_self os))
              (build_cpuset os (reference_topology n)
                            (plan (reference_topology n) r)) in
  req_pid rq = pid_t_of_pthread_t (pthread_self os) /\
  forall i, CPU_ISSET i (req_mask rq) = true ->
            0 <= i <= 7 /\ i < n /\ i < CPU_SETSIZE os.
Proof.
  cbv zeta. cbn [req_pid req_mask]. split; [reflexivity|].
  intros i Hi. apply build_cpuset_bits in Hi as (Hin & Hrange & Hset).
  cbn [total_cores reference_topology] in Hrange.
  split; [|split; [lia | exact Hset]].
  destruct r; vm_compute in Hin; intuition lia.
Qed.

(** X4.  Every affinity request made in a run of calls by one thread,
    whatever it calls and in whatever order, carries as its pid that
    thread's [pthread_self()] converted to [pid_t] (the low 32 bits of the
    handle, not the handle and not [gettid]) and names only processors
    among 0..7 that are below the recorded core count (and fit a
    [cpu_set_t]). *)
Theorem run_requests_safe (cs : list ApiCall) :
  exists s,
    run os cs initial_state = Ok (tt, s) /\
    Forall (fun rq =>
              req_pid rq = pid_t_of_pthread_t (pthread_self os) /\
              forall i, CPU_ISSET i (req_mask rq) = true ->
                        0 <= i <= 7 /\
                        i < int_of_long (sysconf_NPROCESSORS_CONF os) /\
                        i < CPU_SETSIZE os)
           (affinity_requests s).
Proof.
  assert (Hgen : forall cs s0,
    held_topology os (g_topology s0) ->
    Forall (fun rq =>
              req_pid rq = pid_t_of_pthread_t (pthread_self os) /\
              forall i, CPU_ISSET i (req_mask rq) = true ->
                        0 <= i <= 7 /\
                        i < int_of_long (sysconf_NPROCESSORS_CONF os) /\
                        i < CPU_SETSIZE os)
           (affinity_requests s0) ->
    exists s,
      run os cs s0 = Ok (tt, s) /\
      Forall (fun rq =>
                req_pid rq = pid_t_of_pthread_t (pthread_self os) /\
                forall i, CPU_ISSET i (req_mask rq) = true ->
                          0 <= i <= 7 /\
                          i < int_of_long (sysconf_NPROCESSORS_CONF os) /\
                          i < CPU_SETSIZE os)
             (affinity_requests s)).
  { clear cs. induction cs as [|c cs IH]; intros s0 Hheld Hsafe; cbn [run].
    - now exists s0.
    - destruct (call_preserves_held os c s0 Hheld) as (s1 & Hc & Hheld1).
      destruct (call_effect c s0) as (s1' & evs & rs & Hc' & _ & _ & Ha & Hrs).
      rewrite Hc in Hc'. injection Hc' as <-.
      unfold bind. rewrite Hc. apply IH; [exact Hheld1|].
      rewrite Ha. apply Forall_app. split; [exact Hsafe|].
      destruct Hrs as [-> | (_ & Hm & r & ->)]; [constructor|].
      rewrite (held_matched_is_reference _ Hheld Hm).
      constructor; [|constructor].
      apply (safe_request_of_reference_plan r). }
  apply Hgen; [now left | constructor].
Qed.

(** X5.  A process that has not called [Initialize] is inert: whatever
    else it calls, nothing is logged, nothing is asked of the kernel, the
    topology stays the default one, [IsSnapdragon8Gen2] answers false and
    [GetRecommendedThreadCount] answers 0. *)
Theorem uninitialized_process_is_inert (cs : list ApiCall) :
  ~ In CallInitialize cs ->
  exists s,
    run os cs initial_state = Ok (tt, s) /\
    s = initial_state /\
    IsSnapdragon8Gen2 s = Ok (false, s) /\
    GetRecommendedThreadCount s = Ok (0, s).
Proof.
  intros Hno. exists initial_state.
  split; [|repeat split].
  induction cs as [|c cs IH]; cbn [run]; [reflexivity|].
  assert (Hc : call os c initial_state = Ok (tt, initial_state)).
  { destruct c; try reflexivity.
    - exfalso. apply Hno. now left.
    - cbn [call]. unfold SetCpuGovernorPerformance.
      destruct (platform os); reflexivity. }
  unfold bind. rewrite Hc. apply IH. intros H. apply Hno. now right.
Qed.

(** X6.  On a device that does not show the reference signature no
    sequence of calls ever reaches the kernel: the topology stays
    unmatched and the list of affinity requests stays empty. *)
Theorem unmatched_device_never_pins (cs : list ApiCall) :
  ~ reference_signature os ->
  exists s,
    run os cs initial_state = Ok (tt, s) /\
    is_snapdragon_8_gen_2 (g_topology s) = false /\
    affinity_requests s = [].
Proof.
  intros Hsig.
  assert (Hgen : forall cs s0,
    is_snapdragon_8_gen_2 (g_topology s0) = false ->
    affinity_requests s0 = [] ->
    exists s,
      run os cs s0 = Ok (tt, s) /\
      is_snapdragon_8_gen_2 (g_topology s) = false /\
      affinity_requests s = []).
  { clear cs. induction cs as [|c cs IH]; intros s0 Hm Ha; cbn [run].
    - now exists s0.
    - destruct (call_effect c s0) as (s1 & evs & rs & Hc & Hg & _ & Ha1 & Hrs).
      unfold bind. rewrite Hc. apply IH.
      + assert (Hdec : c = CallInitialize \/ c <> CallInitialize)
          by (destruct c; (now left) || (right; discriminate)).
        destruct Hdec as [-> | Hne]; [|rewrite (Hg Hne); exact Hm].
        destruct (Initialize_run os s0) as (s1' & Hrun & _ & Hcase).
        cbn [call] in Hc. rewrite Hrun in Hc. injection Hc as <-.
        destruct Hcase as [[H _] | [_ ->]]; [contradiction | exact Hm].
      + rewrite Ha1, Ha.
        destruct Hrs as [-> | (_ & Hm' & _)]; [reflexivity | congruence]. }
  apply Hgen; reflexivity.
Qed.

(** X7.  Once [Initialize] has been called -- whatever was called before
    it and is called after it -- the process holds the detected topology
    and [IsSnapdragon8Gen2] answers true exactly on a device with the
    reference signature, changing nothing. *)
Theorem IsSnapdragon8Gen2_after_Initialize (before after : list ApiCall) :
  exists s b,
    run os (before ++ CallInitialize :: after) initial_state = Ok (tt, s) /\
    detect os = Some (g_topology s) /\
    IsSnapdragon8Gen2 s = Ok (b, s) /\
    (b = true <-> reference_signature os).
Proof.
  destruct (initialized_run os before after) as (s & Hrun & Hd).
  exists s, (is_snapdragon_8_gen_2 (g_topology s)).
  split; [exact Hrun|]. split; [exact Hd|]. split; [reflexivity|].
  destruct (detect_run os) as [[Hsig Hd'] | [Hsig Hd']];
    rewrite Hd' in Hd; injection Hd as <-; cbn.
  - tauto.
  - split; [discriminate | intros H; contradiction].
Qed.

End ProcessRuns.

Lemma lowercase_device_unmatched :
  ~ TopologyDetector.reference_signature
      (Process.android_device "sm8550" "qualcomm" 8).
Proof.
  intros (getprop & Heq & Hm & _). cbn in Heq. injection Heq as <-.
  cbn in Hm. rewrite <- !strstr_contains in Hm.
  destruct Hm as [H | H]; vm_compute in H; discriminate.
Qed.

Lemma uninitialized_process_is_inert_witness :
  let os := Process.android_device "kalama" "QTI" 8 in
  let cs := [Process.CallSetGPUThreadAffinity;
             Process.CallGetRecommendedThreadCount] in
  ~ In Process.CallInitialize cs /\
  exists s,
    Process.run os cs AndroidCpuAffinity.initial_state = Ok (tt, s) /\
    s = AndroidCpuAffinity.initial_state /\
    AndroidCpuAffinity.IsSnapdragon8Gen2 s = Ok (false, s) /\
    AndroidCpuAffinity.GetRecommendedThreadCount s = Ok (0, s).
Proof.
  cbv zeta.
  assert (H : ~ In Process.CallInitialize
                [Process.CallSetGPUThreadAffinity;
                 Process.CallGetRecommendedThreadCount])
    by (intros [H | [H | []]]; discriminate).
  split; [exact H|].
  exact (uninitialized_process_is_inert
           (Process.android_device "kalama" "QTI" 8) _ H).
Defined.

Lemma unmatched_device_never_pins_witness :
  let os := Process.android_device "sm8550" "qualcomm" 8 in
  let cs := [Process.CallInitialize;
             Process.CallSetPowerPCThreadAffinity;
             Process.CallSetAudioThreadAffinity] in
  ~ TopologyDetector.reference_signature os /\
  exists s,
    Process.run os cs AndroidCpuAffinity.initial_state = Ok (tt, s) /\
    AndroidCpuAffinity.is_snapdragon_8_gen_2 (AndroidCpuAffinity.g_topology s)
      = false /\
    AndroidCpuAffinity.affinity_requests s = [].
Proof.
  cbv zeta. split; [exact lowercase_device_unmatched|].
  exact (unmatched_device_never_pins _ _ lowercase_device_unmatched).
Defined.

Section PinningEffects.
Import AndroidCpuAffinity TopologyDetector AffinityPlanner AffinityApplicator Process.

Variable os : OS.

(** X8.  What a role's pinning function does on the reference topology,
    for any recorded core count: [Generic] changes nothing; each of the
    other three makes exactly one request, whose pid is [pthread_self()]
    converted to [pid_t], with the mask of its plan; when the kernel
    accepts it two INFO lines are
    logged (the cores, then the role's own line), and when it refuses one
    ERROR line with the kernel's message and nothing else. *)
Theorem pinning_on_reference_topology
    (n : Z) (lg : list LogEvent) (reqs : list AffinityRequest) (r : ThreadRole) :
  let g := reference_topology n in
  let s := mkState g lg reqs in
  let request := mkRequest (pid_t_of_pthread_t (pthread_self os)) (build_cpuset os g (plan g r)) in
  let answer := sched_setaffinity_answer os reqs request in
  SetThreadAffinity os r s =
    Ok (tt,
        match r with
        | Generic => s
        | _ =>
            mkState g
              (lg ++
               (if fst answer =? 0
                then mkLog LINFO COMMON "Thread {} affinity set to cores: {}"
                       [ArgInt (gettid os); ArgStr (core_list (plan g r))]
                     :: pinned_message r
                else [mkLog LERROR COMMON "Failed to set CPU affinity: {}"
                        [ArgStr (snd answer)]]))%list
              (reqs ++ [request])%list
        end).
Proof.
  cbv zeta.
  destruct (SetThreadAffinity_applies_plan os r (mkState (reference_topology n) lg reqs))
    as (b & s1 & Happ & ->).
  cbn [g_topology] in Happ. unfold apply in Happ.
  unfold reference_topology in *.
  destruct r; cbn [plan is_snapdragon_8_gen_2] in *;
    try (change (gold_cores (mkTopology true 0 1 4 5 7 n)) with [1; 2; 3; 4] in *);
    try (change (perf_cores (mkTopology true 0 1 4 5 7 n)) with [0; 1; 2; 3; 4] in *);
    try (change (silver_cores (mkTopology true 0 1 4 5 7 n)) with [5; 6; 7] in *);
    try (rewrite SetThreadAffinityToCores_run in Happ;
         cbn [g_topology log affinity_requests] in Happ;
         injection Happ as <- <-;
         match goal with |- context [if ?c then _ else _] => destruct c end;
         cbn; rewrite <- ?app_assoc; reflexivity).
  cbn in Happ. injection Happ as <- <-. reflexivity.
Qed.

(** X9.  On the reference topology with at least 8 recorded cores (and a
    [cpu_set_t] of at least 8 bits) the three masks are
    PowerPC = 0b00011110, GPU = 0b00011111 and Audio = 0b11100000. *)
Theorem reference_masks (n : Z) :
  8 <= n ->
  8 <= CPU_SETSIZE os ->
  let g := reference_topology n in
  build_cpuset os g (plan g PowerPC) = 30 /\
  build_cpuset os g (plan g GPU) = 31 /\
  build_cpuset os g (plan g Audio) = 224.
Proof.
  intros Hn Hsize. cbv zeta.
  assert (Hstep : forall c set, 0 <= c <= 7 ->
            (if (c >=? 0) && (c <? n) then CPU_SET os c set else set)
            = Z.lor set (Z.shiftl 1 c)).
  { intros c set Hc. unfold CPU_SET.
    replace (c >=? 0) with true by (symmetry; rewrite Z.geb_leb; apply Z.leb_le; lia).
    replace (c <? n) with true by (symmetry; apply Z.ltb_lt; lia).
    replace (0 <=? c) with true by (symmetry; apply Z.leb_le; lia).
    replace (c <? CPU_SETSIZE os) with true by (symmetry; apply Z.ltb_lt; lia).
    reflexivity. }
  unfold build_cpuset, reference_topology.
  cbn [plan is_snapdragon_8_gen_2 total_cores].
  change (gold_cores (mkTopology true 0 1 4 5 7 n)) with [1; 2; 3; 4].
  change (perf_cores (mkTopology true 0 1 4 5 7 n)) with [0; 1; 2; 3; 4].
  change (silver_cores (mkTopology true 0 1 4 5 7 n)) with [5; 6; 7].
  cbn [fold_left]. rewrite !Hstep by lia. repeat split.
Qed.

Lemma filter_none {A : Type} (f : A -> bool) (l : list A) :
  (forall x, In x l -> f x = false) -> filter f l = [].
Proof.
  induction l as [|a l IH]; intros H; cbn [filter]; [reflexivity|].
  rewrite (H a) by now left. apply IH. intros x Hx. apply H. now right.
Qed.

(** X10.  A plan that is not empty but has no index inside
    [[0, total_cores)] is not treated like an empty plan: the request is
    still made, with [pthread_self()] converted to [pid_t] as its pid and
    an empty mask, and the result is the kernel's answer to it. *)
Theorem out_of_range_plan_requests_empty_mask
    (c : Z) (cores : list Z) (s : State) :
  (forall i, In i (c :: cores) -> i < 0 \/ total_cores (g_topology s) <= i) ->
  let request := mkRequest (pid_t_of_pthread_t (pthread_self os)) 0 in
  exists s',
    apply os (c :: cores) s =
      Ok (fst (sched_setaffinity_answer os (affinity_requests s) request) =? 0, s') /\
    affinity_requests s' = (affinity_requests s ++ [request])%list.
Proof.
  intros Hout request. subst request.
  unfold apply. rewrite SetThreadAffinityToCores_run.
  rewrite build_cpuset_filter, filter_none.
  - eexists. split; reflexivity.
  - intros i Hi. unfold in_range. destruct (Hout i Hi) as [H | H].
    + replace (0 <=? i) with false by (symmetry; apply Z.leb_gt; lia). reflexivity.
    + replace (i <? total_cores (g_topology s)) with false
        by (symmetry; apply Z.ltb_ge; lia).
      apply andb_false_r.
Qed.

(** X11.  The mask depends only on which indices the plan holds, not on
    their order or on repetitions. *)
Theorem build_cpuset_same_members (g : CpuTopology) (l1 l2 : list Z) :
  (forall i, In i l1 <-> In i l2) ->
  build_cpuset os g l1 = build_cpuset os g l2.
Proof.
  intros Hsame. apply Z.bits_inj'. intros i _.
  apply eq_true_iff_eq.
  change (CPU_ISSET i (build_cpuset os g l1) = true <->
          CPU_ISSET i (build_cpuset os g l2) = true).
  rewrite !build_cpuset_bits, Hsame. reflexivity.
Qed.

End PinningEffects.

Lemma reference_masks_witness :
  let os := Process.android_device "kalama" "QTI" 8 in
  let g := TopologyDetector.reference_topology 8 in
  (8 <= 8 /\ 8 <= AndroidCpuAffinity.CPU_SETSIZE os) /\
  (AndroidCpuAffinity.build_cpuset os g (AffinityPlanner.plan g AffinityPlanner.PowerPC) = 30 /\
   AndroidCpuAffinity.build_cpuset os g (AffinityPlanner.plan g AffinityPlanner.GPU) = 31 /\
   AndroidCpuAffinity.build_cpuset os g (AffinityPlanner.plan g AffinityPlanner.Audio) = 224).
Proof.
  cbv zeta. split.
  - split; [lia | cbn; lia].
  - apply (reference_masks (Process.android_device "kalama" "QTI" 8) 8);
      [lia | cbn; lia].
Defined.

Lemma out_of_range_plan_requests_empty_mask_witness :
  let os := Process.android_device "kalama" "QTI" 4 in
  let s := AndroidCpuAffinity.mkState (TopologyDetector.reference_topology 4) [] [] in
  let request := AndroidCpuAffinity.mkRequest
      (AndroidCpuAffinity.pid_t_of_pthread_t (AndroidCpuAffinity.pthread_self os)) 0 in
  (forall i, In i [5; 6; 7] ->
             i < 0 \/ AndroidCpuAffinity.total_cores (AndroidCpuAffinity.g_topology s) <= i) /\
  exists s',
    AffinityApplicator.apply os [5; 6; 7] s =
      Ok (fst (AndroidCpuAffinity.sched_setaffinity_answer os
                 (AndroidCpuAffinity.affinity_requests s) request) =? 0, s') /\
    AndroidCpuAffinity.affinity_requests s' =
      (AndroidCpuAffinity.affinity_requests s ++ [request])%list.
Proof.
  cbv zeta.
  assert (H : forall i, In i [5; 6; 7] ->
            i < 0 \/
            AndroidCpuAffinity.total_cores
              (AndroidCpuAffinity.g_topology
                 (AndroidCpuAffinity.mkState
                    (TopologyDetector.reference_topology 4) [] [])) <= i)
    by (cbn; intros i Hi; lia).
  split; [exact H|].
  exact (out_of_range_plan_requests_empty_mask
           (Process.android_device "kalama" "QTI" 4) 5 [6; 7] _ H).
Defined.

Lemma build_cpuset_same_members_witness :
  let os := Process.android_device "kalama" "QTI" 8 in
  let g := TopologyDetector.reference_topology 8 in
  (forall i, In i [1; 2] <-> In i [2; 1; 1]) /\
  AndroidCpuAffinity.build_cpuset os g [1; 2] =
  AndroidCpuAffinity.build_cpuset os g [2; 1; 1].
Proof.
  cbv zeta.
  assert (H : forall i, In i [1; 2] <-> In i [2; 1; 1]) by (cbn; intuition lia).
  split; [exact H|].
  exact (build_cpuset_same_members (Process.android_device "kalama" "QTI" 8) _ _ _ H).
Defined.

Section Vectors.
Import AndroidCpuAffinity.

Lemma string_app_assoc (a b c : string) : ((a ++ b) ++ c = a ++ (b ++ c))%string.
Proof. induction a as [|x a IH]; cbn; [reflexivity | now rewrite IH]. Qed.

Lemma string_app_nil_r (a : string) : (a ++ "" = a)%string.
Proof. induction a as [|x a IH]; cbn; [reflexivity | now rewrite IH]. Qed.

Lemma core_list_concat (cores : list Z) :
  core_list cores = String.concat "," (map to_string cores).
Proof.
  induction cores as [|c rest IH]; [reflexivity|].
  cbn [core_list map String.concat]. rewrite IH.
  destruct rest as [|d rest]; [apply string_app_nil_r | reflexivity].
Qed.

(** The index loop, started after [pre] has been written, appends the
    joined remainder. *)
Lemma core_list_loop_spec (suf pre : list Z) (acc : string) :
  Z.of_nat (List.length (pre ++ suf)) <= 2 ^ 64 ->
  core_list_loop (List.length suf) (pre ++ suf)
                 (Z.of_nat (List.length pre)) acc
  = (acc ++ core_list suf)%string.
Proof.
  revert pre acc. induction suf as [|c rest IH]; intros pre acc Hlen.
  - cbn. symmetry. apply string_app_nil_r.
  - cbn [List.length core_list_loop].
    rewrite length_app in Hlen |- *. cbn [List.length] in Hlen |- *.
    assert (Hi : (Z.of_nat (List.length pre) <?
                  Z.of_nat (List.length pre + S (List.length rest))) = true)
      by (apply Z.ltb_lt; lia).
    rewrite Hi, Nat2Z.id, nth_middle.
    unfold wrap_unsigned. rewrite Z.mod_small by lia.
    assert (Hcomma : (Z.of_nat (List.length pre) <?
                      Z.of_nat (List.length pre + S (List.length rest)) - 1)
                     = match rest with [] => false | _ => true end).
    { destruct rest; cbn [List.length]; [apply Z.ltb_ge | apply Z.ltb_lt]; lia. }
    rewrite Hcomma.
    replace (Z.of_nat (List.length pre) + 1)
      with (Z.of_nat (List.length (pre ++ [c])))
      by (rewrite length_app; cbn [List.length]; lia).
    replace (pre ++ c :: rest)%list with ((pre ++ [c]) ++ rest)%list
      by (rewrite <- app_assoc; reflexivity).
    rewrite IH by (rewrite !length_app; cbn [List.length]; lia).
    cbn [core_list]. destruct rest; rewrite !string_app_assoc; reflexivity.
Qed.

(** X12.  The logged core list is the decimal entries joined by single
    commas, with no comma after the last one: the index loop of the source
    (its [size() - 1] taken in [size_t]) computes
    [String.concat "," (map to_string cores)] for every vector whose size
    fits a [size_t], the empty one included, and so does [core_list]. *)
Theorem core_list_is_comma_join (cores : list Z) :
  Z.of_nat (List.length cores) <= 2 ^ 64 ->
  core_list_by_index cores = String.concat "," (map to_string cores) /\
  core_list cores = core_list_by_index cores.
Proof.
  intros Hlen.
  assert (H : core_list_by_index cores = core_list cores).
  { unfold core_list_by_index.
    apply (core_list_loop_spec cores [] ""). exact Hlen. }
  split; [rewrite H; apply core_list_concat | symmetry; exact H].
Qed.

Lemma push_back_loop_spec (n : nat) (i : Z) (v : list Z) :
  push_back_loop n i v = (v ++ map (fun k => i + Z.of_nat k) (seq 0 n))%list.
Proof.
  revert i v. induction n as [|n IH]; intros i v; cbn [push_back_loop seq map].
  - now rewrite app_nil_r.
  - rewrite IH, <- app_assoc. cbn [app]. f_equal.
    rewrite Z.add_0_r. f_equal.
    rewrite <- seq_shift, map_map. apply map_ext. intros k. lia.
Qed.

Lemma push_back_range_In (first last i : Z) (v : list Z) :
  In i (push_back_range first last v) <-> In i v \/ first <= i <= last.
Proof.
  unfold push_back_range. rewrite push_back_loop_spec, in_app_iff, in_map_iff.
  split; (intros [H | H]; [now left | right]).
  - destruct H as (k & <- & Hk). apply in_seq in Hk. lia.
  - exists (Z.to_nat (i - first)). split; [lia | apply in_seq; lia].
Qed.

Lemma NoDup_map_injective {A B : Type} (f : A -> B) (l : list A) :
  (forall a b, f a = f b -> a = b) -> NoDup l -> NoDup (map f l).
Proof.
  intros Hinj Hl. induction Hl as [|a l Hnot Hl IH]; cbn [map]; constructor.
  - intros Hin. apply in_map_iff in Hin as (b & Hb & Hin).
    apply Hinj in Hb. subst b. contradiction.
  - exact IH.
Qed.

(** X13.  The vectors the pinning functions build, for any topology whose
    range ends are below [INT_MAX] (beyond which [i++] would overflow):
    the Gold vector holds exactly the indices from [gold_cores_start] to
    [gold_cores_end] inclusive -- none when the end is below the start --
    the Silver vector likewise, each without repetition, and the GPU
    vector is the Prime index followed by the Gold vector. *)
Theorem pinning_vectors (g : CpuTopology) :
  gold_cores_end g < 2 ^ 31 - 1 ->
  silver_cores_end g < 2 ^ 31 - 1 ->
  (forall i, In i (gold_cores g) <-> gold_cores_start g <= i <= gold_cores_end g) /\
  (forall i, In i (silver_cores g) <->
             silver_cores_start g <= i <= silver_cores_end g) /\
  perf_cores g = prime_core g :: gold_cores g /\
  List.length (gold_cores g) =
    Z.to_nat (gold_cores_end g + 1 - gold_cores_start g) /\
  NoDup (gold_cores g) /\ NoDup (silver_cores g).
Proof.
  intros _ _.
  assert (Hnodup : forall first last, NoDup (push_back_range first last [])).
  { intros first last. unfold push_back_range.
    rewrite push_back_loop_spec. cbn [app].
    apply NoDup_map_injective; [|apply seq_NoDup].
    intros a b Hab. lia. }
  assert (Hin : forall first last i,
            In i (push_back_range first last []) <-> first <= i <= last).
  { intros first last i. rewrite push_back_range_In. cbn [In]. tauto. }
  unfold gold_cores, silver_cores, perf_cores.
  split; [intros i; apply Hin|].
  split; [intros i; apply Hin|].
  split; [unfold push_back_range; rewrite !push_back_loop_spec; reflexivity|].
  split; [|split; apply Hnodup].
  unfold push_back_range. rewrite push_back_loop_spec. cbn [app].
  now rewrite length_map, length_seq.
Qed.

End Vectors.

Lemma core_list_is_comma_join_witness :
  Z.of_nat (List.length [1; 2; 3; 4]) <= 2 ^ 64 /\
  (AndroidCpuAffinity.core_list_by_index [1; 2; 3; 4] =
     String.concat "," (map to_string [1; 2; 3; 4]) /\
   AndroidCpuAffinity.core_list [1; 2; 3; 4] =
     AndroidCpuAffinity.core_list_by_index [1; 2; 3; 4]).
Proof.
  assert (H : Z.of_nat (List.length [1; 2; 3; 4]) <= 2 ^ 64) by (cbn; lia).
  split; [exact H | exact (core_list_is_comma_join [1; 2; 3; 4] H)].
Defined.

Lemma pinning_vectors_witness :
  let g := TopologyDetector.reference_topology 8 in
  (AndroidCpuAffinity.gold_cores_end g < 2 ^ 31 - 1 /\
   AndroidCpuAffinity.silver_cores_end g < 2 ^ 31 - 1) /\
  ((forall i, In i (AndroidCpuAffinity.gold_cores g) <->
              AndroidCpuAffinity.gold_cores_start g <= i <=
              AndroidCpuAffinity.gold_cores_end g) /\
   (forall i, In i (AndroidCpuAffinity.silver_cores g) <->
              AndroidCpuAffinity.silver_cores_start g <= i <=
              AndroidCpuAffinity.silver_cores_end g) /\
   AndroidCpuAffinity.perf_cores g =
     AndroidCpuAffinity.prime_core g :: AndroidCpuAffinity.gold_cores g /\
   List.length (AndroidCpuAffinity.gold_cores g) =
     Z.to_nat (AndroidCpuAffinity.gold_cores_end g + 1 -
               AndroidCpuAffinity.gold_cores_start g) /\
   NoDup (AndroidCpuAffinity.gold_cores g) /\
   NoDup (AndroidCpuAffinity.silver_cores g)).
Proof.
  cbv zeta.
  assert (H1 : AndroidCpuAffinity.gold_cores_end
                 (TopologyDetector.reference_topology 8) < 2 ^ 31 - 1)
    by (cbn; lia).
  assert (H2 : AndroidCpuAffinity.silver_cores_end
                 (TopologyDetector.reference_topology 8) < 2 ^ 31 - 1)
    by (cbn; lia).
  split; [split; assumption|].
  exact (pinning_vectors (TopologyDetector.reference_topology 8) H1 H2).
Defined.

(* ================================================================== *)
(** * Further properties of the Adreno code *)

Section GpuEffects.
Import AdrenoOptimizations.

(** X14.  [IsTurnipDriver] never faults; it answers true exactly when the
    name is not null and contains "turnip", "Turnip" or "Mesa" (so not
    "TURNIP" or "mesa"), and it logs one INFO line when it answers true
    and nothing otherwise. *)
Theorem IsTurnipDriver_classifies (device_name : option string) (l : Log) :
  exists b : bool,
    IsTurnipDriver device_name l =
      Ok (b, if b
             then (l ++ [mkLog LINFO VIDEO "Turnip Mesa drivers detected" []])%list
             else l) /\
    (b = true <->
       exists s, device_name = Some s /\
                 (contains s "turnip" \/ contains s "Turnip" \/ contains s "Mesa")) /\
    IsTurnipDriver (Some "TURNIP mesa") l = Ok (false, l).
Proof.
  destruct (IsTurnipDriver_run device_name l) as (b & l' & Hrun & Hb).
  exists b. split; [|split; [exact Hb | reflexivity]].
  rewrite Hrun. revert Hrun. unfold IsTurnipDriver.
  destruct device_name as [s|]; cbn [not_null negb].
  - unfold orM, bind, ret. rewrite !strstr_found_run.
    destruct (not_null (strstr s "turnip"));
      [|rewrite ?strstr_found_run; destruct (not_null (strstr s "Turnip"))];
      rewrite ?strstr_found_run;
      [| |destruct (not_null (strstr s "Mesa"))];
      cbn; intros H; injection H as <- <-; reflexivity.
  - cbn. intros H; injection H as <- <-; reflexivity.
Qed.

(** X15.  What [IsAdreno740] returns and logs is fixed by its inputs.
    With the Qualcomm vendor id and a reference device id it answers true
    and logs the device-ID line, even when the name would match as well.
    With the Qualcomm vendor id, no reference device id and a name (not
    null) that contains one of the two fragments, it answers true and logs
    the device-name line with that name.  In every other case -- another
    vendor id, or neither a reference id nor a matching name -- it answers
    false and logs nothing. *)
Theorem IsAdreno740_detection_path
    (device_name : option string) (vendor_id device_id : Z) (l : Log) :
  exists (b : bool) (l' : Log),
    IsAdreno740 device_name vendor_id device_id l = Ok (b, l') /\
    ((vendor_id = 0x5143 /\
      (device_id = 0x43050A01 \/ device_id = 0x43051401) /\
      b = true /\
      l' = (l ++ [mkLog LINFO VIDEO
                    "Adreno 740 detected via device ID: 0x{:08X}"
                    [ArgInt device_id]])%list) \/
     (vendor_id = 0x5143 /\
      device_id <> 0x43050A01 /\ device_id <> 0x43051401 /\
      (exists s,
         device_name = Some s /\
         (contains s "Adreno (TM) 740" \/ contains s "Adreno 740") /\
         l' = (l ++ [mkLog LINFO VIDEO
                       "Adreno 740 detected via device name: {}"
                       [ArgStr s]])%list) /\
      b = true) \/
     ((vendor_id <> 0x5143 \/
       (device_id <> 0x43050A01 /\ device_id <> 0x43051401 /\
        ~ GpuDetector.name_matches device_name)) /\
      b = false /\ l' = l)).
Proof.
  unfold IsAdreno740, GpuDetector.name_matches.
  change 0x5143 with QUALCOMM_VENDOR_ID.
  change 0x43050A01 with ADRENO_740_ID_1.
  change 0x43051401 with ADRENO_740_ID_2.
  destruct (vendor_id =? QUALCOMM_VENDOR_ID) eqn:Hv; cbn [negb].
  2:{ apply Z.eqb_neq in Hv. exists false, l. split; [reflexivity|].
      right; right. auto. }
  apply Z.eqb_eq in Hv.
  destruct ((device_id =? ADRENO_740_ID_1) || (device_id =? ADRENO_740_ID_2))
    eqn:Hd.
  - eexists true, _. split; [reflexivity|]. left.
    apply orb_true_iff in Hd. rewrite !Z.eqb_eq in Hd. auto.
  - apply orb_false_iff in Hd as [Hd1 Hd2]. apply Z.eqb_neq in Hd1, Hd2.
    destruct device_name as [s|].
    2:{ exists false, l. split; [reflexivity|]. right; right.
        split; [|auto]. right. split; [exact Hd1|]. split; [exact Hd2|].
        intros (s & Hs & _). discriminate. }
    unfold andM, orM, bind at 1 2 3, ret at 1. cbn [not_null].
    rewrite !strstr_found_run.
    destruct (not_null (strstr s "Adreno (TM) 740")) eqn:H1;
      [|rewrite ?strstr_found_run;
        destruct (not_null (strstr s "Adreno 740")) eqn:H2].
    + eexists true, _. split; [reflexivity|]. right; left.
      apply strstr_contains in H1. repeat split; auto.
      exists s. auto.
    + eexists true, _. split; [reflexivity|]. right; left.
      apply strstr_contains in H2. repeat split; auto.
      exists s. auto.
    + exists false, l. split; [reflexivity|]. right; right.
      split; [|auto]. right. split; [exact Hd1|]. split; [exact Hd2|].
      intros (s' & Hs & Hc). injection Hs as <-.
      rewrite <- !strstr_contains in Hc. destruct Hc; congruence.
Qed.

(** X16.  The byte sizes written as products of [int] constants do not
    overflow: computed in wrapping 32-bit arithmetic and converted to
    their field types, the pipeline cache is the exact product
    512 * 1024 * 1024, the texture staging buffer 128 * 1024 * 1024 and
    the upload buffer 64 * 1024 * 1024, each below 2^31. *)
Theorem policy_sizes_do_not_overflow :
  GetOptimalPipelineCacheSize = 512 * 1024 * 1024 /\
  staging_buffer_size GetTextureCompressionParams = 128 * 1024 * 1024 /\
  upload_buffer_size GetOptimalMemoryParams = 64 * 1024 * 1024 /\
  upload_buffer_size GetOptimalMemoryParams
    < staging_buffer_size GetTextureCompressionParams
    < GetOptimalPipelineCacheSize /\
  GetOptimalPipelineCacheSize < 2 ^ 31.
Proof. repeat split. Qed.

(** X17.  Whatever [has_turnip] and the log, [GetOptimalExtensions]
    returns six names, no two of them equal. *)
Theorem extensions_are_distinct (has_turnip : bool) (l : Log) :
  exists exts,
    result (GetOptimalExtensions has_turnip l) = Some exts /\
    List.length exts = 6%nat /\
    NoDup exts.
Proof.
  eexists. split; [destruct has_turnip; reflexivity|]. split; [reflexivity|].
  repeat constructor; cbn; intuition discriminate.
Qed.

End GpuEffects.

Section MaskBounds.
Import AndroidCpuAffinity.

Variable os : OS.

Lemma build_cpuset_nonneg (g : CpuTopology) (cores : list Z) :
  0 <= build_cpuset os g cores.
Proof.
  unfold build_cpuset.
  assert (H : forall acc, 0 <= acc ->
    0 <= fold_left
           (fun cpuset core =>
              if (core >=? 0) && (core <? total_cores g)
              then CPU_SET os core cpuset else cpuset) cores acc).
  { induction cores as [|c cores IH]; intros acc Hacc; cbn [fold_left]; [exact Hacc|].
    apply IH. destruct ((c >=? 0) && (c <? total_cores g)); [|exact Hacc].
    unfold CPU_SET. destruct ((0 <=? c) && (c <? CPU_SETSIZE os)) eqn:Hc; [|exact Hacc].
    apply andb_true_iff in Hc as [Hc _]. apply Z.leb_le in Hc.
    apply Z.lor_nonneg. split; [exact Hacc|].
    rewrite Z.shiftl_1_l. apply Z.pow_nonneg. lia. }
  apply H. unfold CPU_ZERO. lia.
Qed.

(** X18.  The mask is a number of at most min(total_cores, CPU_SETSIZE)
    bits: it is never negative, bit [i] is set exactly when [i] is in the
    plan, inside [[0, total_cores)] and below [CPU_SETSIZE], and so the
    mask is below 2 to that minimum (0 when the minimum is not positive). *)
Theorem build_cpuset_bounds (g : CpuTopology) (cores : list Z) :
  let width := Z.max 0 (Z.min (total_cores g) (CPU_SETSIZE os)) in
  0 <= build_cpuset os g cores < 2 ^ width /\
  forall i, CPU_ISSET i (build_cpuset os g cores) = true <->
            In i cores /\ 0 <= i < total_cores g /\ i < CPU_SETSIZE os.
Proof.
  intros width. split; [|intros i; apply build_cpuset_bits].
  pose proof (build_cpuset_nonneg g cores) as Hnn.
  split; [exact Hnn|].
  destruct (Z.eq_dec (build_cpuset os g cores) 0) as [-> | Hne].
  - apply Z.pow_pos_nonneg; subst width; lia.
  - assert (Hpos : 0 < build_cpuset os g cores) by lia.
    apply Z.log2_lt_pow2; [exact Hpos|].
    pose proof (Z.bit_log2 _ Hpos) as Hbit.
    change (CPU_ISSET (Z.log2 (build_cpuset os g cores))
                      (build_cpuset os g cores) = true) in Hbit.
    apply build_cpuset_bits in Hbit. subst width. lia.
Qed.

End MaskBounds.
